(** * Currency inventory ledger: weighted-average cost accounting

    A shallow embedding of the accounting core of the forex inventory
    tracker: the buy, sell and reset routes registered by
    [registerRoutes], written once against the store interface
    [IStorage]; the two implementations of it that the sources export
    under the name [storage], the SQLite store ([SqliteStorage], with
    the tables of [server/database.ts]) and the in-memory store
    ([MemStorage]); the upsert of daily stats of the relational store
    ([DatabaseStorage]); the helpers [calculateAverageBuyPrice] and
    [calculateProfit] of [utils/currency]; and the submit handlers of
    the buy and sell forms of the UI.

    Conventions of the embedding.
    - A JavaScript [number] is an IEEE 754 binary64 number, the kernel's
      primitive [float]; [NaN] is [nan].  A decimal string and the number
      it denotes are one value: [amount], [rate], [total] and [profit]
      travel as numbers or as the strings [toString] makes of them, and
      a string that denotes no number is NaN, as [Number] reads it.
    - A request body is the body after it passed the insert schema
      ([insertTransactionSchema.parse]), which checks types only and has
      no range constraint; [notes] is a string or [null] ([None]).
    - An object is read through its properties, and a property the
      object does not have reads [undefined] ([None]).  The in-memory
      store hands out the objects it was given, with the properties of
      the schema types.  The SQLite store hands out what [stmt.get]
      makes of a row, an object with one property per column under the
      name of the column: it has [id], [amount] and [profit], but no
      [avgBuyPrice] and no [transactionCount] (the columns are
      [avg_buy_price] and [transaction_count]).  The record of a schema
      type is also used for a row of a table, field by field in the
      order of the columns.
    - A number that is NaN is bound to a statement as NULL, and a NULL
      written to a NOT NULL column makes the statement throw.
    - A table is the list of its rows in rowid order together with its
      AUTOINCREMENT counter.  The [last_updated] and [timestamp] columns
      are left out: nothing below reads them.  The calendar date a
      request obtains from the clock is the argument [today].
    - A call of the store can throw.  The routes run in a small monad
      that threads the store together with a schedule saying which of
      the coming calls fail; under the empty schedule only those
      statements throw that the rule on NaN makes throw. *)

From Stdlib Require Import ZArith List String Bool Lia.
From Stdlib Require Floats Uint63.
Import ListNotations.

Open Scope string_scope.
Open Scope Z_scope.

(** ** Numbers *)

Definition num : Type := PrimFloat.float.

Definition zero : num := PrimFloat.zero.

Definition nan : num := PrimFloat.nan.

(** The operations the code applies to numbers: [+ - * /], the
    comparisons [<] (and [>], its converse) and [<=], and strict
    equality. *)
Declare Scope num_scope.
Delimit Scope num_scope with num.
Notation "x + y" := (PrimFloat.add x y) : num_scope.
Notation "x - y" := (PrimFloat.sub x y) : num_scope.
Notation "x * y" := (PrimFloat.mul x y) : num_scope.
Notation "x / y" := (PrimFloat.div x y) : num_scope.
Notation "x <? y" := (PrimFloat.ltb x y) : num_scope.
Notation "x >? y" := (PrimFloat.ltb y x) : num_scope.
Notation "x <=? y" := (PrimFloat.leb x y) : num_scope.
Notation "x === y" := (PrimFloat.eqb x y) (at level 70, no associativity) : num_scope.

(** [isNaN]: NaN is the one number that differs from itself. *)
Definition isNaN (x : num) : bool := negb (x === x)%num.

(** ** Schema (the types of the schema module the routes import) *)

Module Currency.
Record t : Type := Build {
  id : Z;
  code : string;
  name : string;
  country : string;
  currentRate : num
}.
End Currency.

Module Inventory.
Record t : Type := Build {
  id : Z;
  currencyId : Z;
  amount : num;
  avgBuyPrice : num
}.
End Inventory.

Module InsertInventory.
Record t : Type := Build {
  currencyId : Z;
  amount : num;
  avgBuyPrice : num
}.
End InsertInventory.

(** The [type] column: "BUY" or "SELL". *)
Inductive TransactionType : Type := BUY | SELL.

Module InsertTransaction.
Record t : Type := Build {
  currencyId : Z;
  type : TransactionType;
  amount : num;
  rate : num;
  total : num;
  notes : option string;
  profit : option num
}.
End InsertTransaction.

Module Transaction.
Record t : Type := Build {
  id : Z;
  currencyId : Z;
  type : TransactionType;
  amount : num;
  rate : num;
  total : num;
  notes : option string;
  profit : option num
}.
End Transaction.

Module InsertDailyStats.
Record t : Type := Build {
  date : string;
  profit : num;
  transactionCount : Z
}.
End InsertDailyStats.

Module DailyStats.
Record t : Type := Build {
  id : Z;
  date : string;
  profit : num;
  transactionCount : Z
}.
End DailyStats.

(** ** Objects as the routes read them *)

Module Js.

(** [Number(v)] of a property read: [Number(undefined)] is NaN. *)
Definition Number (v : option num) : num :=
  match v with
  | Some x => x
  | None => nan
  end.

(** The properties the routes read of an object typed [Inventory]. *)
Record Inventory : Type := Build_Inventory {
  id : Z;
  amount : num;
  avgBuyPrice : option num
}.

(** The properties the routes read of an object typed [DailyStats]. *)
Record DailyStats : Type := Build_DailyStats {
  profit : num;
  transactionCount : option Z
}.

(** [transactionCount + 1]: NaN ([None]) when the count is [undefined]. *)
Definition plus_one (count : option Z) : option Z :=
  match count with
  | Some n => Some (n + 1)
  | None => None
  end.

(** The object literal the sell route hands to
    [createOrUpdateDailyStats]; its count is an integer or NaN. *)
Record InsertDailyStats : Type := Build_InsertDailyStats {
  date : string;
  stats_profit : num;
  stats_transactionCount : option Z
}.

End Js.

(** ** The store interface ([IStorage]) *)

(** A call of the store returns or throws. *)
Inductive Outcome (X : Type) : Type :=
| Returned (x : X)
| Thrown.
Arguments Returned {X} x.
Arguments Thrown {X}.

(** The methods the routes below call.  A method that returns leaves
    the store in a new state; one that throws has written nothing.
    [getCurrency] resolves to an object the routes only test;
    [updateInventoryItem] and the upsert resolve to objects they drop. *)
Module IStorage.
Class t (S : Type) : Type := Build {
  getCurrency : Z -> S -> Outcome (S * option Currency.t);
  getInventoryByCurrencyId : Z -> S -> Outcome (S * option Js.Inventory);
  createInventoryItem : InsertInventory.t -> S -> Outcome (S * Js.Inventory);
  updateInventoryItem : Z -> num -> num -> S -> Outcome (S * unit);
  createTransaction : InsertTransaction.t -> S -> Outcome (S * Transaction.t);
  getDailyStats : string -> S -> Outcome (S * option Js.DailyStats);
  createOrUpdateDailyStats : Js.InsertDailyStats -> S -> Outcome (S * unit);
  resetInventory : S -> Outcome (S * unit)
}.
End IStorage.

(** ** The SQLite store ([server/storage.ts], class [SqliteStorage])

    Each method is the SQL statement it prepares and runs, read on the
    tables as lists.  [stmt.get] returns the first matching row.  The
    FOREIGN KEY on [currency_id] plays no part below: the routes insert
    a row only for a currency they have just found. *)

Module SqliteStorage.

Record t : Type := Build {
  currencies : list Currency.t;
  inventory : list Inventory.t;
  transactions : list Transaction.t;
  daily_stats : list DailyStats.t;
  inventory_seq : Z;
  transactions_seq : Z;
  daily_stats_seq : Z
}.

Definition with_inventory (db : t) (rows : list Inventory.t) (seq : Z) : t :=
  Build (currencies db) rows (transactions db) (daily_stats db)
        seq (transactions_seq db) (daily_stats_seq db).

Definition with_transactions (db : t) (rows : list Transaction.t) (seq : Z) : t :=
  Build (currencies db) (inventory db) rows (daily_stats db)
        (inventory_seq db) seq (daily_stats_seq db).

Definition with_daily_stats (db : t) (rows : list DailyStats.t) (seq : Z) : t :=
  Build (currencies db) (inventory db) (transactions db) rows
        (inventory_seq db) (transactions_seq db) seq.

(** [SELECT * FROM currencies WHERE id = ?] *)
Definition getCurrency (id : Z) (db : t) : option Currency.t :=
  find (fun c => Currency.id c =? id) (currencies db).

(** [SELECT * FROM inventory WHERE id = ?] *)
Definition getInventoryItem (id : Z) (db : t) : option Inventory.t :=
  find (fun i => Inventory.id i =? id) (inventory db).

(** [SELECT * FROM inventory WHERE currency_id = ?]: the row. *)
Definition getInventoryByCurrencyId (currencyId : Z) (db : t) : option Inventory.t :=
  find (fun i => Inventory.currencyId i =? currencyId) (inventory db).

(** [INSERT INTO inventory (currency_id, amount, avg_buy_price)]; the
    method resolves to [{ id: result.lastInsertRowid, ...item }]. *)
Definition createInventoryItem (item : InsertInventory.t) (db : t) : t * Inventory.t :=
  let row := Inventory.Build (inventory_seq db + 1)
               (InsertInventory.currencyId item)
               (InsertInventory.amount item)
               (InsertInventory.avgBuyPrice item) in
  (with_inventory db (inventory db ++ [row]) (inventory_seq db + 1), row).

(** One row of [UPDATE inventory SET amount = ?, avg_buy_price = ? WHERE id = ?]. *)
Definition set_inventory_row (id : Z) (amount avgBuyPrice : num) (i : Inventory.t)
  : Inventory.t :=
  if Inventory.id i =? id
  then Inventory.Build (Inventory.id i) (Inventory.currencyId i) amount avgBuyPrice
  else i.

(** [stmt.run(amount, avgBuyPrice, id)]: both columns are NOT NULL, so
    the statement throws when either number is NaN. *)
Definition updateInventoryItem (id : Z) (amount avgBuyPrice : num) (db : t)
  : Outcome (t * option Inventory.t) :=
  if isNaN amount || isNaN avgBuyPrice then Thrown
  else
    let db' := with_inventory db
                 (map (set_inventory_row id amount avgBuyPrice) (inventory db))
                 (inventory_seq db) in
    Returned (db', getInventoryItem id db').

(** [INSERT INTO transactions (currency_id, type, amount, rate, total, notes, profit)];
    nothing else: this store does not touch [daily_stats] here.  The
    method resolves to [{ id: result.lastInsertRowid, ...transaction }]. *)
Definition createTransaction (transaction : InsertTransaction.t) (db : t)
  : t * Transaction.t :=
  let row := Transaction.Build (transactions_seq db + 1)
               (InsertTransaction.currencyId transaction)
               (InsertTransaction.type transaction)
               (InsertTransaction.amount transaction)
               (InsertTransaction.rate transaction)
               (InsertTransaction.total transaction)
               (InsertTransaction.notes transaction)
               (InsertTransaction.profit transaction) in
  (with_transactions db (transactions db ++ [row]) (transactions_seq db + 1), row).

(** [SELECT * FROM daily_stats WHERE date = ?]: the row. *)
Definition getDailyStats (date : string) (db : t) : option DailyStats.t :=
  find (fun s => String.eqb (DailyStats.date s) date) (daily_stats db).

(** The [DO UPDATE SET profit = excluded.profit, transaction_count =
    excluded.transaction_count] arm, on a row in conflict on [date]
    (the column is UNIQUE). *)
Definition set_daily_stats_row (stats : InsertDailyStats.t) (s : DailyStats.t)
  : DailyStats.t :=
  if String.eqb (DailyStats.date s) (InsertDailyStats.date stats)
  then DailyStats.Build (DailyStats.id s) (DailyStats.date s)
         (InsertDailyStats.profit stats) (InsertDailyStats.transactionCount stats)
  else s.

(** [INSERT INTO daily_stats ... ON CONFLICT(date) DO UPDATE ...], on a
    payload whose count is an integer. *)
Definition createOrUpdateDailyStats (stats : InsertDailyStats.t) (db : t)
  : t * option DailyStats.t :=
  let db' :=
    match getDailyStats (InsertDailyStats.date stats) db with
    | Some _ =>
        with_daily_stats db (map (set_daily_stats_row stats) (daily_stats db))
          (daily_stats_seq db)
    | None =>
        with_daily_stats db
          (daily_stats db ++
             [DailyStats.Build (daily_stats_seq db + 1)
                (InsertDailyStats.date stats)
                (InsertDailyStats.profit stats)
                (InsertDailyStats.transactionCount stats)])
          (daily_stats_seq db + 1)
    end in
  (db', getDailyStats (InsertDailyStats.date stats) db').

(** The three statements of [resetInventory], run in one SQLite transaction:
    [DELETE FROM transactions], [UPDATE inventory SET amount = 0],
    [UPDATE daily_stats SET profit = 0, transaction_count = 0]. *)
Definition resetInventory (db : t) : t * unit :=
  (Build (currencies db)
     (map (fun i => Inventory.Build (Inventory.id i) (Inventory.currencyId i)
                      zero (Inventory.avgBuyPrice i))
          (inventory db))
     []
     (map (fun s => DailyStats.Build (DailyStats.id s) (DailyStats.date s) zero 0)
          (daily_stats db))
     (inventory_seq db) (transactions_seq db) (daily_stats_seq db),
   tt).

(** *** What the methods resolve to, as a route reads it *)

(** The object [stmt.get] makes of a row of [inventory]: its keys are
    [id], [currency_id], [amount], [avg_buy_price] and [last_updated].
    It has no property [avgBuyPrice]. *)
Definition selected (row : Inventory.t) : Js.Inventory :=
  Js.Build_Inventory (Inventory.id row) (Inventory.amount row) None.

(** The object [{ id: result.lastInsertRowid, ...item }] that
    [createInventoryItem] resolves to: the properties of [item]. *)
Definition inserted (row : Inventory.t) : Js.Inventory :=
  Js.Build_Inventory (Inventory.id row) (Inventory.amount row)
    (Some (Inventory.avgBuyPrice row)).

(** The object [stmt.get] makes of a row of [daily_stats]: its keys are
    [id], [date], [profit] and [transaction_count].  It has no property
    [transactionCount]. *)
Definition selected_stats (row : DailyStats.t) : Js.DailyStats :=
  Js.Build_DailyStats (DailyStats.profit row) None.

(** [stmt.run(stats.date, stats.profit, stats.transactionCount)]: a
    count that is NaN is bound as NULL, and [transaction_count] is NOT
    NULL. *)
Definition upsert (stats : Js.InsertDailyStats) (db : t) : Outcome (t * unit) :=
  match Js.stats_transactionCount stats with
  | Some count =>
      Returned
        (fst (createOrUpdateDailyStats
                (InsertDailyStats.Build (Js.date stats) (Js.stats_profit stats) count)
                db),
         tt)
  | None => Thrown
  end.

(** [export const storage = new SqliteStorage()] *)
#[global] Instance storage : IStorage.t t := {|
  IStorage.getCurrency id db := Returned (db, getCurrency id db);
  IStorage.getInventoryByCurrencyId currencyId db :=
    Returned (db, option_map selected (getInventoryByCurrencyId currencyId db));
  IStorage.createInventoryItem item db :=
    let (db', row) := createInventoryItem item db in Returned (db', inserted row);
  IStorage.updateInventoryItem id amount avgBuyPrice db :=
    match updateInventoryItem id amount avgBuyPrice db with
    | Returned (db', _) => Returned (db', tt)
    | Thrown => Thrown
    end;
  IStorage.createTransaction transaction db :=
    Returned (createTransaction transaction db);
  IStorage.getDailyStats date db :=
    Returned (db, option_map selected_stats (getDailyStats date db));
  IStorage.createOrUpdateDailyStats := upsert;
  IStorage.resetInventory db := Returned (resetInventory db)
|}.

End SqliteStorage.

(** ** Helpers of [utils/currency] *)

Section CurrencyUtils.
Local Open Scope num_scope.

Definition calculateAverageBuyPrice
  (currentAmount currentAvgPrice newAmount newPrice : num) : num :=
  let currentTotalValue := currentAmount * currentAvgPrice in
  let newTotalValue := newAmount * newPrice in
  let totalAmount := currentAmount + newAmount in
  if totalAmount === zero then zero
  else (currentTotalValue + newTotalValue) / totalAmount.

Definition calculateProfit (amount sellPrice avgBuyPrice : num) : num :=
  amount * (sellPrice - avgBuyPrice).

End CurrencyUtils.

(** ** The routes ([registerRoutes]) *)

Module Routes.

(** The body of a POST to [/api/transactions/buy] or [/api/transactions/sell]. *)
Record Request : Type := Build_Request {
  currencyId : Z;
  amount : num;
  rate : num;
  total : num;
  notes : option string
}.

(** What a route answers: the status and the part of the JSON the
    properties below read. *)
Inductive Response : Type :=
| Created (transaction : Transaction.t)   (* 201 and the created transaction *)
| NotFound (message : string)             (* 404 *)
| NotEnoughStock (available : num)        (* 400, "Not enough currency in stock" *)
| Failed (message : string)               (* 500, from the catch block *)
| Done (message : string).                (* 200 *)

Section Def.
Context {S : Type} {storage : IStorage.t S}.

(** *** Awaiting the store *)

(** The store and, for each coming call of it, whether the call fails. *)
Definition World : Type := (S * list bool)%type.

Definition Async (X : Type) : Type := World -> World * Outcome X.

Definition ret {X : Type} (x : X) : Async X :=
  fun w => (w, Returned x).

Definition bind {X Y : Type} (m : Async X) (k : X -> Async Y) : Async Y :=
  fun w =>
    let (w', o) := m w in
    match o with
    | Returned x => k x w'
    | Thrown => (w', Thrown)
    end.

(** A call that throws, by the schedule or of itself, leaves the store
    as it found it. *)
Definition await {X : Type} (call : S -> Outcome (S * X)) : Async X :=
  fun w =>
    let (db, schedule) := w in
    match schedule with
    | true :: later => ((db, later), Thrown)
    | _ =>
        match call db with
        | Returned (db', x) => ((db', tl schedule), Returned x)
        | Thrown => ((db, tl schedule), Thrown)
        end
    end.

(** [try { ... } catch (error) { res.status(500)... }] *)
Definition try_catch (body : Async Response) (on_error : Response)
  : World -> World * Response :=
  fun w =>
    let (w', o) := body w in
    match o with
    | Returned r => (w', r)
    | Thrown => (w', on_error)
    end.

(** A request served with an empty schedule. *)
Definition run (route : World -> World * Response) (db : S) : S * Response :=
  let (w, r) := route (db, []) in (fst w, r).

Local Notation "x <- m ;; k" := (bind m (fun x => k))
  (at level 61, m at next level, right associativity).
Local Notation "m ;; k" := (bind m (fun _ => k))
  (at level 61, right associativity).

Local Open Scope num_scope.

(** [app.post("/api/transactions/buy", ...)] *)
Definition post_transactions_buy (body : Request) : World -> World * Response :=
  try_catch
    (let transactionData :=
       InsertTransaction.Build (currencyId body) BUY (amount body) (rate body)
         (total body) (notes body) (Some zero) in
     currency <- await (IStorage.getCurrency (currencyId body)) ;;
     match currency with
     | None => ret (NotFound "Currency not found")
     | Some _ =>
         found <- await (IStorage.getInventoryByCurrencyId (currencyId body)) ;;
         inventoryItem <-
           match found with
           | Some i => ret i
           | None =>
               await (IStorage.createInventoryItem
                        (InsertInventory.Build (currencyId body) zero (rate body)))
           end ;;
         let currentTotalValue :=
           Js.amount inventoryItem * Js.Number (Js.avgBuyPrice inventoryItem) in
         let newValue := amount body * rate body in
         let newTotalAmount := Js.amount inventoryItem + amount body in
         let newAvgBuyPrice :=
           if newTotalAmount >? zero
           then (currentTotalValue + newValue) / newTotalAmount
           else rate body in
         await (IStorage.updateInventoryItem
                  (Js.id inventoryItem) newTotalAmount newAvgBuyPrice) ;;
         transaction <- await (IStorage.createTransaction transactionData) ;;
         ret (Created transaction)
     end)
    (Failed "Failed to create transaction").

(** [app.post("/api/transactions/sell", ...)]; [today] is
    [new Date().toISOString().split('T')[0]]. *)
Definition post_transactions_sell (today : string) (body : Request)
  : World -> World * Response :=
  try_catch
    (found <- await (IStorage.getInventoryByCurrencyId (currencyId body)) ;;
     match found with
     | None => ret (NotFound "Inventory not found for this currency")
     | Some inventoryItem =>
         if Js.amount inventoryItem <? amount body
         then ret (NotEnoughStock (Js.amount inventoryItem))
         else
           let profit :=
             amount body * (rate body - Js.Number (Js.avgBuyPrice inventoryItem)) in
           let transactionData :=
             InsertTransaction.Build (currencyId body) SELL (amount body) (rate body)
               (total body) (notes body) (Some profit) in
           let newAmount := Js.amount inventoryItem - amount body in
           await (IStorage.updateInventoryItem
                    (Js.id inventoryItem) newAmount
                    (Js.Number (Js.avgBuyPrice inventoryItem))) ;;
           transaction <- await (IStorage.createTransaction transactionData) ;;
           dailyStats <- await (IStorage.getDailyStats today) ;;
           match dailyStats with
           | Some s =>
               await (IStorage.createOrUpdateDailyStats
                        (Js.Build_InsertDailyStats today
                           (Js.profit s + profit)
                           (Js.plus_one (Js.transactionCount s))))
           | None =>
               await (IStorage.createOrUpdateDailyStats
                        (Js.Build_InsertDailyStats today profit (Some 1%Z)))
           end ;;
           ret (Created transaction)
     end)
    (Failed "Failed to create transaction").

(** [app.post("/api/reset", ...)] *)
Definition post_reset : World -> World * Response :=
  try_catch
    (await IStorage.resetInventory ;;
     ret (Done "Inventory has been reset successfully"))
    (Failed "Failed to reset inventory").

End Def.
End Routes.

(** ** The in-memory store (class [MemStorage])

    The module that declares [IStorage] beside this class ends in
    [export const storage = new MemStorage()]: with it, the [storage]
    the routes import is this store.

    A JavaScript [Map] is the list of its entries in insertion order:
    [set] on a key already present replaces the value where it stands,
    [set] on a new key appends.  The state keeps the maps and counters
    that the methods below read or write. *)

Module MemStorage.

Section JsMap.
Context {K V : Type} (same : K -> K -> bool).

Fixpoint map_get (k : K) (m : list (K * V)) : option V :=
  match m with
  | [] => None
  | (k', v) :: rest => if same k' k then Some v else map_get k rest
  end.

Fixpoint map_set (k : K) (v : V) (m : list (K * V)) : list (K * V) :=
  match m with
  | [] => [(k, v)]
  | (k', v') :: rest =>
      if same k' k then (k', v) :: rest else (k', v') :: map_set k v rest
  end.

End JsMap.

Section Def.
Local Open Scope num_scope.

(** An inventory object of this variant also carries [totalValue], once
    an update has computed it or the insert gave it. *)
Record Item : Type := Build_Item {
  id : Z;
  currencyId : Z;
  amount : num;
  avgBuyPrice : num;
  totalValue : option num
}.

Record t : Type := Build {
  currencies : list (Z * Currency.t);
  inventoryItems : list (Z * Item);
  transactionsList : list (Z * Transaction.t);
  stats : list (string * DailyStats.t);
  inventoryCurrentId : Z;
  transactionCurrentId : Z;
  statsCurrentId : Z
}.

Definition getCurrency (id : Z) (s : t) : option Currency.t :=
  map_get Z.eqb id (currencies s).

Definition getInventoryItem (id : Z) (s : t) : option Item :=
  map_get Z.eqb id (inventoryItems s).

(** [Array.from(this.inventoryItems.values()).find(...)] *)
Definition getInventoryByCurrencyId (currencyId' : Z) (s : t) : option Item :=
  find (fun item => (currencyId item =? currencyId')%Z) (map snd (inventoryItems s)).

(** [createInventoryItem], on an insert without [totalValue] (the
    routes give none). *)
Definition createInventoryItem (insertInventory : InsertInventory.t) (s : t)
  : t * Item :=
  let id' := inventoryCurrentId s in
  let inventoryItem :=
    Build_Item id' (InsertInventory.currencyId insertInventory)
      (InsertInventory.amount insertInventory)
      (InsertInventory.avgBuyPrice insertInventory) None in
  (Build (currencies s) (map_set Z.eqb id' inventoryItem (inventoryItems s))
     (transactionsList s) (stats s) (id' + 1)%Z (transactionCurrentId s)
     (statsCurrentId s),
   inventoryItem).

Definition updateInventoryItem (id' : Z) (amount' avgBuyPrice' : num)
  (totalValue' : option num) (s : t) : t * option Item :=
  match map_get Z.eqb id' (inventoryItems s) with
  | None => (s, None)
  | Some inventoryItem =>
      let actualTotalValue :=
        match totalValue' with
        | Some v => v
        | None => amount' * avgBuyPrice'
        end in
      let updatedItem :=
        Build_Item (id inventoryItem) (currencyId inventoryItem)
          amount' avgBuyPrice' (Some actualTotalValue) in
      (Build (currencies s) (map_set Z.eqb id' updatedItem (inventoryItems s))
         (transactionsList s) (stats s) (inventoryCurrentId s)
         (transactionCurrentId s) (statsCurrentId s),
       Some updatedItem)
  end.

Definition getDailyStats (date : string) (s : t) : option DailyStats.t :=
  map_get String.eqb date (stats s).

Definition createOrUpdateDailyStats (insertStats : InsertDailyStats.t) (s : t)
  : t * DailyStats.t :=
  match map_get String.eqb (InsertDailyStats.date insertStats) (stats s) with
  | Some existingStat =>
      let updatedStat :=
        DailyStats.Build (DailyStats.id existingStat) (DailyStats.date existingStat)
          (InsertDailyStats.profit insertStats)
          (InsertDailyStats.transactionCount insertStats) in
      (Build (currencies s) (inventoryItems s) (transactionsList s)
         (map_set String.eqb (InsertDailyStats.date insertStats) updatedStat (stats s))
         (inventoryCurrentId s) (transactionCurrentId s) (statsCurrentId s),
       updatedStat)
  | None =>
      let stat :=
        DailyStats.Build (statsCurrentId s) (InsertDailyStats.date insertStats)
          (InsertDailyStats.profit insertStats)
          (InsertDailyStats.transactionCount insertStats) in
      (Build (currencies s) (inventoryItems s) (transactionsList s)
         (map_set String.eqb (InsertDailyStats.date insertStats) stat (stats s))
         (inventoryCurrentId s) (transactionCurrentId s) (statsCurrentId s + 1)%Z,
       stat)
  end.

(** [createTransaction]: the object is stored under the next id and
    folded into the stat of [today], the date of its timestamp, whatever
    its type. *)
Definition createTransaction (today : string) (insertTransaction : InsertTransaction.t)
  (s : t) : t * Transaction.t :=
  let id' := transactionCurrentId s in
  let transaction :=
    Transaction.Build id'
      (InsertTransaction.currencyId insertTransaction)
      (InsertTransaction.type insertTransaction)
      (InsertTransaction.amount insertTransaction)
      (InsertTransaction.rate insertTransaction)
      (InsertTransaction.total insertTransaction)
      (InsertTransaction.notes insertTransaction)
      (InsertTransaction.profit insertTransaction) in
  let s1 := Build (currencies s) (inventoryItems s)
              (map_set Z.eqb id' transaction (transactionsList s)) (stats s)
              (inventoryCurrentId s) (id' + 1)%Z (statsCurrentId s) in
  let profit :=
    match Transaction.profit transaction with
    | Some p => p
    | None => zero
    end in
  let s2 :=
    match getDailyStats today s1 with
    | Some dailyStat =>
        fst (createOrUpdateDailyStats
               (InsertDailyStats.Build today (DailyStats.profit dailyStat + profit)
                  (DailyStats.transactionCount dailyStat + 1)%Z) s1)
    | None =>
        fst (createOrUpdateDailyStats (InsertDailyStats.Build today profit 1%Z) s1)
    end in
  (s2, transaction).

(** One turn of the loop of [resetInventory] over the entries of
    [inventoryItems]. *)
Definition reset_entry (s : t) (entry : Z * Item) : t :=
  let (id', item) := entry in
  match getCurrency (currencyId item) s with
  | Some currency =>
      fst (updateInventoryItem id' zero (Currency.currentRate currency) None s)
  | None => s
  end.

Definition resetInventory (today : string) (s : t) : t :=
  let s1 := fold_left reset_entry (inventoryItems s) s in
  let s2 := Build (currencies s1) (inventoryItems s1) [] (stats s1)
              (inventoryCurrentId s1) 1%Z (statsCurrentId s1) in
  fst (createOrUpdateDailyStats (InsertDailyStats.Build today zero 0%Z) s2).

(** *** What the methods resolve to, as a route reads it *)

(** The store hands out the objects it keeps: every property of the
    schema type is there. *)
Definition object (item : Item) : Js.Inventory :=
  Js.Build_Inventory (id item) (amount item) (Some (avgBuyPrice item)).

Definition stats_object (stat : DailyStats.t) : Js.DailyStats :=
  Js.Build_DailyStats (DailyStats.profit stat) (Some (DailyStats.transactionCount stat)).

(** The upsert as the sell route calls it.  The count it is handed is
    one more than the count of an object of this store, or 1: it is an
    integer, and the arm for a count that is NaN is never taken (see
    [mem_sell]). *)
Definition upsert (stats' : Js.InsertDailyStats) (s : t) : Outcome (t * unit) :=
  match Js.stats_transactionCount stats' with
  | Some count =>
      Returned
        (fst (createOrUpdateDailyStats
                (InsertDailyStats.Build (Js.date stats') (Js.stats_profit stats') count)
                s),
         tt)
  | None => Thrown
  end.

(** [export const storage = new MemStorage()], on the day [today]. *)
Definition storage (today : string) : IStorage.t t := {|
  IStorage.getCurrency id' s := Returned (s, getCurrency id' s);
  IStorage.getInventoryByCurrencyId currencyId' s :=
    Returned (s, option_map object (getInventoryByCurrencyId currencyId' s));
  IStorage.createInventoryItem insertInventory s :=
    let (s', item) := createInventoryItem insertInventory s in
    Returned (s', object item);
  IStorage.updateInventoryItem id' amount' avgBuyPrice' s :=
    Returned (fst (updateInventoryItem id' amount' avgBuyPrice' None s), tt);
  IStorage.createTransaction insertTransaction s :=
    Returned (createTransaction today insertTransaction s);
  IStorage.getDailyStats date s :=
    Returned (s, option_map stats_object (getDailyStats date s));
  IStorage.createOrUpdateDailyStats := upsert;
  IStorage.resetInventory s := Returned (resetInventory today s, tt)
|}.

End Def.
End MemStorage.

(** ** The relational store (class [DatabaseStorage]): its [daily_stats]
    table, which is all that [createOrUpdateDailyStats] touches. *)

Module DatabaseStorage.

Record t : Type := Build {
  dailyStats : list DailyStats.t;
  dailyStats_serial : Z
}.

(** [db.select().from(dailyStats).where(eq(dailyStats.date, date))], first row. *)
Definition getDailyStats (date : string) (db : t) : option DailyStats.t :=
  find (fun s => String.eqb (DailyStats.date s) date) (dailyStats db).

Definition createOrUpdateDailyStats (insertStats : InsertDailyStats.t) (db : t)
  : t * option DailyStats.t :=
  match getDailyStats (InsertDailyStats.date insertStats) db with
  | Some existingStat =>
      let rows :=
        map (fun s =>
               if String.eqb (DailyStats.date s) (InsertDailyStats.date insertStats)
               then DailyStats.Build (DailyStats.id s) (DailyStats.date s)
                      (InsertDailyStats.profit insertStats)
                      (InsertDailyStats.transactionCount insertStats)
               else s)
            (dailyStats db) in
      (Build rows (dailyStats_serial db),
       find (fun s => String.eqb (DailyStats.date s) (InsertDailyStats.date insertStats))
            rows)
  | None =>
      let newStat :=
        DailyStats.Build (dailyStats_serial db + 1) (InsertDailyStats.date insertStats)
          (InsertDailyStats.profit insertStats)
          (InsertDailyStats.transactionCount insertStats) in
      (Build (dailyStats db ++ [newStat]) (dailyStats_serial db + 1), Some newStat)
  end.

End DatabaseStorage.

(** ** The buy and sell forms of the UI ([BuyModal], [SellModal])

    A text field is [None] when it is empty and otherwise the number
    [parseFloat] reads in it (NaN when it reads none); [total] is the
    text the form keeps beside them. *)

Module Forms.
Section Def.
Local Open Scope num_scope.

Record Form : Type := Build_Form {
  currencyId : option Z;
  amount : option num;
  rate : option num;
  total : num;
  notes : option string
}.

(** What [handleSubmit] ends in: a toast of the form, with no request
    sent, or the request it posts. *)
Inductive Outcome : Type :=
| Toast (title : string)
| Posted (body : Routes.Request).

(** [handleSubmit] of [BuyModal]. *)
Definition buy_handleSubmit (form : Form) : Outcome :=
  match currencyId form, amount form, rate form with
  | Some currencyId', Some amountValue, Some rateValue =>
      if isNaN amountValue || (amountValue <=? zero)
      then Toast "Invalid Amount"
      else if isNaN rateValue || (rateValue <=? zero)
      then Toast "Invalid Rate"
      else Posted (Routes.Build_Request currencyId' amountValue rateValue
                     (total form) (notes form))
  | _, _, _ => Toast "Validation Error"
  end.

(** [handleSubmit] of [SellModal]; [availableAmount] is the amount the
    form last read for the currency. *)
Definition sell_handleSubmit (availableAmount : num) (form : Form) : Outcome :=
  match currencyId form, amount form, rate form with
  | Some currencyId', Some amountValue, Some rateValue =>
      if isNaN amountValue || (amountValue <=? zero)
      then Toast "Invalid Amount"
      else if isNaN rateValue || (rateValue <=? zero)
      then Toast "Invalid Rate"
      else if amountValue >? availableAmount
      then Toast "Insufficient Stock"
      else Posted (Routes.Build_Request currencyId' amountValue rateValue
                     (total form) (notes form))
  | _, _, _ => Toast "Validation Error"
  end.

End Def.
End Forms.

(** ** Numbers written in decimal *)

Module Binary64.

(** The integer [z] as a number ([|z| < 2^53], so without rounding). *)
Definition of_Z (z : Z) : num :=
  match z with
  | Z0 => zero
  | Zpos _ => PrimFloat.of_uint63 (Uint63.of_Z z)
  | Zneg p => PrimFloat.opp (PrimFloat.of_uint63 (Uint63.of_Z (Zpos p)))
  end.

(** The number a decimal literal denotes: the double nearest to [n / d]
    (so [ratio 1 10] is the literal [0.1], [ratio 165 2] is [82.5]). *)
Definition ratio (n : Z) (d : positive) : num :=
  PrimFloat.div (of_Z n) (of_Z (Zpos d)).

End Binary64.

(** ** Ledgers and runs used to state the properties *)

Section Ledgers.
Local Open Scope num_scope.

(** A ledger of the SQLite store with one currency, of id 1 and market
    rate [rate], and its inventory row holding [amount] at
    [avgBuyPrice]; no transaction and no daily stat yet. *)
Definition ledger (rate amount avgBuyPrice : num) : SqliteStorage.t :=
  SqliteStorage.Build
    [Currency.Build 1 "GBP" "British Pound" "United Kingdom" rate]
    [Inventory.Build 1 1 amount avgBuyPrice]
    [] [] 1 0 0.

(** The same ledger with a daily stat for [date]. *)
Definition ledger_with_stat (rate amount avgBuyPrice : num)
  (date : string) (profit : num) (transactionCount : Z) : SqliteStorage.t :=
  SqliteStorage.Build
    [Currency.Build 1 "GBP" "British Pound" "United Kingdom" rate]
    [Inventory.Build 1 1 amount avgBuyPrice]
    [] [DailyStats.Build 1 date profit transactionCount] 1 0 1.

(** A ledger of the SQLite store whose currency has no inventory row
    yet, with a zeroed daily stat for [date]. *)
Definition ledger_of_currency (rate : num) (date : string) : SqliteStorage.t :=
  SqliteStorage.Build
    [Currency.Build 1 "GBP" "British Pound" "United Kingdom" rate]
    [] [] [DailyStats.Build 1 date zero 0] 0 0 1.

(** A ledger of the in-memory store with the same currency and position. *)
Definition mem_ledger (rate amount avgBuyPrice : num) : MemStorage.t :=
  MemStorage.Build
    [(1, Currency.Build 1 "GBP" "British Pound" "United Kingdom" rate)]
    [(1, MemStorage.Build_Item 1 1 amount avgBuyPrice (Some (amount * avgBuyPrice)))]
    [] [] 2 1 1.

(** The same ledger with a daily stat for [date]. *)
Definition mem_ledger_with_stat (rate amount avgBuyPrice : num)
  (date : string) (profit : num) (transactionCount : Z) : MemStorage.t :=
  MemStorage.Build
    [(1, Currency.Build 1 "GBP" "British Pound" "United Kingdom" rate)]
    [(1, MemStorage.Build_Item 1 1 amount avgBuyPrice (Some (amount * avgBuyPrice)))]
    [] [(date, DailyStats.Build 1 date profit transactionCount)] 2 1 2.

(** A request on currency 1 whose total is [amount * rate]. *)
Definition request (amount rate : num) : Routes.Request :=
  Routes.Build_Request 1 amount rate (amount * rate) (Some "counter").

(** A day of requests: each is a buy, or a sell with the date its route
    read from the clock. *)
Inductive Op : Type :=
| Buy (body : Routes.Request)
| Sell (today : string) (body : Routes.Request).

Section Runs.
Context {S : Type} {storage : IStorage.t S}.

Definition serve (op : Op) (db : S) : S * Routes.Response :=
  match op with
  | Buy body => Routes.run (Routes.post_transactions_buy body) db
  | Sell today body => Routes.run (Routes.post_transactions_sell today body) db
  end.

(** The requests of a list served in order, with what each was answered. *)
Fixpoint serve_all (ops : list Op) (db : S) : S * list (Op * Routes.Response) :=
  match ops with
  | [] => (db, [])
  | op :: rest =>
      let (db1, r) := serve op db in
      let (db2, log) := serve_all rest db1 in
      (db2, (op, r) :: log)
  end.

(** Buys served one after the other. *)
Definition buy_all (bodies : list Routes.Request) (db : S) : S :=
  fold_left (fun db' body => fst (Routes.run (Routes.post_transactions_buy body) db'))
            bodies db.

End Runs.

(** The position of a currency: the amount held and its average price. *)
Definition position (currencyId : Z) (db : SqliteStorage.t) : option (num * num) :=
  match SqliteStorage.getInventoryByCurrencyId currencyId db with
  | Some row => Some (Inventory.amount row, Inventory.avgBuyPrice row)
  | None => None
  end.

Definition mem_position (currencyId : Z) (s : MemStorage.t) : option (num * num) :=
  match MemStorage.getInventoryByCurrencyId currencyId s with
  | Some item => Some (MemStorage.amount item, MemStorage.avgBuyPrice item)
  | None => None
  end.

(** The keys of [inventoryItems]: no key stands twice, as in a [Map],
    and every item is kept under its own id, where [createInventoryItem]
    puts it. *)
Definition mem_keyed (s : MemStorage.t) : Prop :=
  NoDup (map fst (MemStorage.inventoryItems s))
  /\ Forall (fun entry => fst entry = MemStorage.id (snd entry))
            (MemStorage.inventoryItems s).

(** [updateAverageOnBuy] of the specification, on binary64: the new
    amount and the new average price of a position [(amount, price)]
    after a purchase [(amount, price)].  The specification requires a
    purchase of an amount above zero; where the new amount is not above
    zero the price is the incoming one. *)
Definition updateAverageOnBuy (held purchase : num * num) : num * num :=
  let (currentAmount, currentAvgPrice) := held in
  let (incomingAmount, incomingPrice) := purchase in
  let newAmount := currentAmount + incomingAmount in
  (newAmount,
   if newAmount >? zero
   then (currentAmount * currentAvgPrice + incomingAmount * incomingPrice) / newAmount
   else incomingPrice).

(** The purchase a buy request asks for. *)
Definition purchase (body : Routes.Request) : num * num :=
  (Routes.amount body, Routes.rate body).

(** The rows the routes hand to [createTransaction]. *)
Definition buy_row (body : Routes.Request) : InsertTransaction.t :=
  InsertTransaction.Build (Routes.currencyId body) BUY (Routes.amount body)
    (Routes.rate body) (Routes.total body) (Routes.notes body) (Some zero).

Definition sell_row (avgBuyPrice : num) (body : Routes.Request) : InsertTransaction.t :=
  InsertTransaction.Build (Routes.currencyId body) SELL (Routes.amount body)
    (Routes.rate body) (Routes.total body) (Routes.notes body)
    (Some (Routes.amount body * (Routes.rate body - avgBuyPrice))).

(** The profit column of a row ([transaction.profit || 0]). *)
Definition profit_of (transaction : Transaction.t) : num :=
  match Transaction.profit transaction with
  | Some p => p
  | None => zero
  end.

(** What a query of the stat of [date] shows. *)
Definition stat_of (date : string) (db : SqliteStorage.t) : option (num * Z) :=
  match SqliteStorage.getDailyStats date db with
  | Some s => Some (DailyStats.profit s, DailyStats.transactionCount s)
  | None => None
  end.

Definition mem_stat_of (date : string) (s : MemStorage.t) : option (num * Z) :=
  match MemStorage.getDailyStats date s with
  | Some stat => Some (DailyStats.profit stat, DailyStats.transactionCount stat)
  | None => None
  end.

(** One more sell of the day: its profit is added and it is counted. *)
Definition fold_one (start : option (num * Z)) (p : num) : option (num * Z) :=
  match start with
  | Some (total, count) => Some (total + p, (count + 1)%Z)
  | None => Some (p, 1%Z)
  end.

(** The stored stat carries the payload's profit and count. *)
Definition carries (stats : InsertDailyStats.t) (stored : option DailyStats.t) : Prop :=
  exists row,
    stored = Some row
    /\ DailyStats.profit row = InsertDailyStats.profit stats
    /\ DailyStats.transactionCount row = InsertDailyStats.transactionCount stats.

(** What the loop of the in-memory reset makes of an entry of
    [inventoryItems]. *)
Definition reseed (s : MemStorage.t) (entry : Z * MemStorage.Item)
  : Z * MemStorage.Item :=
  let (id, item) := entry in
  match MemStorage.getCurrency (MemStorage.currencyId item) s with
  | Some currency =>
      (id, MemStorage.Build_Item (MemStorage.id item) (MemStorage.currencyId item)
             zero (Currency.currentRate currency)
             (Some (zero * Currency.currentRate currency)))
  | None => (id, item)
  end.

(** The payload the sell route hands to the upsert of the in-memory
    store: the stat of the day with the profit added and the count
    raised, or the first stat of the day. *)
Definition mem_folded (today : string) (profit : num) (s : MemStorage.t)
  : InsertDailyStats.t :=
  match MemStorage.getDailyStats today s with
  | Some stat =>
      InsertDailyStats.Build today (DailyStats.profit stat + profit)
        (DailyStats.transactionCount stat + 1)%Z
  | None => InsertDailyStats.Build today profit 1%Z
  end.

(** The amount, the rate and the total of a logged row are those of the
    request. *)
Definition copies (body : Routes.Request) (transaction : Transaction.t) : Prop :=
  Transaction.total transaction = Routes.total body
  /\ Transaction.amount transaction = Routes.amount body
  /\ Transaction.rate transaction = Routes.rate body.

(** The transaction is in the log of the store. *)
Definition logged (transaction : Transaction.t) (db : SqliteStorage.t) : Prop :=
  In transaction (SqliteStorage.transactions db).

Definition mem_logged (transaction : Transaction.t) (s : MemStorage.t) : Prop :=
  MemStorage.map_get Z.eqb (Transaction.id transaction) (MemStorage.transactionsList s)
  = Some transaction.

End Ledgers.

(** ** Tactics *)

(** Two numbers that differ, by computing [===] against the second. *)
Ltac differ :=
  let H := fresh in
  intro H;
  match type of H with
  | ?x = ?y => apply (f_equal (fun v => PrimFloat.eqb v y)) in H
  end;
  vm_compute in H; discriminate H.

(** Unfolding a route down to the calls of the store. *)
Ltac run_route :=
  unfold Routes.run, Routes.post_transactions_buy, Routes.post_transactions_sell,
    Routes.post_reset, Routes.try_catch, Routes.bind, Routes.await, Routes.ret;
  cbn [IStorage.getCurrency IStorage.getInventoryByCurrencyId
       IStorage.createInventoryItem IStorage.updateInventoryItem
       IStorage.createTransaction IStorage.getDailyStats
       IStorage.createOrUpdateDailyStats IStorage.resetInventory
       SqliteStorage.storage MemStorage.storage tl fst snd].

(** * Properties *)

(** ** Facts of binary64 *)

Section Binary64Facts.
Local Open Scope num_scope.

Lemma lt_irrefl (x : num) : (x <? x) = false.
Proof.
  rewrite FloatAxioms.ltb_spec. unfold SpecFloat.SFltb, SpecFloat.SFcompare.
  destruct (FloatOps.Prim2SF x) as [s|s| |s m e]; try reflexivity.
  - destruct s; reflexivity.
  - destruct s; rewrite Z.compare_refl.
    + change (Pos.compare_cont Eq m m) with (Pos.compare m m).
      rewrite Pos.compare_refl. reflexivity.
    + change (Pos.compare_cont Eq m m) with (Pos.compare m m).
      rewrite Pos.compare_refl. reflexivity.
Qed.

Lemma isNaN_nan : isNaN nan = true.
Proof. reflexivity. Qed.

(** NaN spreads through the operations of the buy route. *)
Lemma mul_nan (x : num) : x * nan = nan.
Proof.
  rewrite <- (FloatAxioms.SF2Prim_Prim2SF (x * nan)), FloatAxioms.mul_spec.
  change (FloatOps.Prim2SF nan) with SpecFloat.S754_nan.
  unfold SpecFloat.SFmul. destruct (FloatOps.Prim2SF x); reflexivity.
Qed.

Lemma nan_add (x : num) : nan + x = nan.
Proof.
  rewrite <- (FloatAxioms.SF2Prim_Prim2SF (nan + x)), FloatAxioms.add_spec.
  change (FloatOps.Prim2SF nan) with SpecFloat.S754_nan. reflexivity.
Qed.

Lemma nan_div (x : num) : nan / x = nan.
Proof.
  rewrite <- (FloatAxioms.SF2Prim_Prim2SF (nan / x)), FloatAxioms.div_spec.
  change (FloatOps.Prim2SF nan) with SpecFloat.S754_nan. reflexivity.
Qed.

(** A number above zero is not zero. *)
Lemma above_zero_not_zero (x : num) : (x >? zero) = true -> (x === zero) = false.
Proof.
  rewrite FloatAxioms.ltb_spec, FloatAxioms.eqb_spec.
  change (FloatOps.Prim2SF zero) with (SpecFloat.S754_zero false).
  unfold SpecFloat.SFltb, SpecFloat.SFeqb, SpecFloat.SFcompare.
  destruct (FloatOps.Prim2SF x) as [s|s| |s m e]; try discriminate;
    destruct s; intros H; try discriminate H; reflexivity.
Qed.

(** Adding to zero an amount above zero gives the amount. *)
Lemma zero_add (x : num) : (x >? zero) = true -> zero + x = x.
Proof.
  intros H.
  rewrite <- (FloatAxioms.SF2Prim_Prim2SF (zero + x)), FloatAxioms.add_spec.
  rewrite <- (FloatAxioms.SF2Prim_Prim2SF x) at 2.
  rewrite FloatAxioms.ltb_spec in H. revert H.
  change (FloatOps.Prim2SF zero) with (SpecFloat.S754_zero false).
  unfold SpecFloat.SFltb, SpecFloat.SFcompare.
  destruct (FloatOps.Prim2SF x) as [s|s| |s m e]; try discriminate; reflexivity.
Qed.

End Binary64Facts.

(** ** What one request does to the SQLite store *)

Section SqliteFacts.
Local Open Scope num_scope.

Lemma find_app {X : Type} (f : X -> bool) (l l' : list X) :
  find f (l ++ l') = match find f l with Some x => Some x | None => find f l' end.
Proof.
  induction l as [|x l IH]; simpl; [reflexivity|].
  destruct (f x); auto.
Qed.

(** The row of the currency is still the first of its currency after
    the UPDATE by its id, with the new amount and price. *)
Lemma find_set_inventory_row (c : Z) (m p : num) (inv : Inventory.t)
  (rows : list Inventory.t) :
  find (fun i => (Inventory.currencyId i =? c)%Z) rows = Some inv ->
  find (fun i => (Inventory.currencyId i =? c)%Z)
       (map (SqliteStorage.set_inventory_row (Inventory.id inv) m p) rows)
  = Some (Inventory.Build (Inventory.id inv) (Inventory.currencyId inv) m p).
Proof.
  induction rows as [|row rows IH]; simpl; [discriminate|].
  destruct (Inventory.currencyId row =? c)%Z eqn:Hc.
  - intros [= ->]. unfold SqliteStorage.set_inventory_row.
    rewrite Z.eqb_refl. simpl. rewrite Hc. reflexivity.
  - intros Hfind. unfold SqliteStorage.set_inventory_row at 1.
    destruct (Inventory.id row =? Inventory.id inv)%Z; simpl; rewrite Hc; auto.
Qed.

Lemma sqlite_buy_not_found (body : Routes.Request) (db : SqliteStorage.t) :
  SqliteStorage.getCurrency (Routes.currencyId body) db = None ->
  Routes.run (Routes.post_transactions_buy body) db
  = (db, Routes.NotFound "Currency not found").
Proof. intros Hc. run_route. rewrite Hc. reflexivity. Qed.

(** A buy that finds the row of its currency reads no average price in
    it: whenever the new amount is above zero the new price is NaN and
    the UPDATE throws. *)
Lemma sqlite_buy_found (body : Routes.Request) (db : SqliteStorage.t)
  (currency : Currency.t) (row : Inventory.t) :
  SqliteStorage.getCurrency (Routes.currencyId body) db = Some currency ->
  SqliteStorage.getInventoryByCurrencyId (Routes.currencyId body) db = Some row ->
  Routes.run (Routes.post_transactions_buy body) db
  = if (Inventory.amount row + Routes.amount body >? zero)
       || isNaN (Inventory.amount row + Routes.amount body)
       || isNaN (Routes.rate body)
    then (db, Routes.Failed "Failed to create transaction")
    else
      let db1 :=
        SqliteStorage.with_inventory db
          (map (SqliteStorage.set_inventory_row (Inventory.id row)
                  (Inventory.amount row + Routes.amount body) (Routes.rate body))
               (SqliteStorage.inventory db))
          (SqliteStorage.inventory_seq db) in
      let created := SqliteStorage.createTransaction (buy_row body) db1 in
      (fst created, Routes.Created (snd created)).
Proof.
  intros Hc Hi. run_route. rewrite Hc. cbn [fst snd tl]. rewrite Hi.
  cbn [option_map SqliteStorage.selected Js.amount Js.avgBuyPrice Js.id Js.Number
       fst snd tl].
  rewrite mul_nan, nan_add, nan_div. unfold SqliteStorage.updateInventoryItem.
  destruct (Inventory.amount row + Routes.amount body >? zero).
  - rewrite isNaN_nan, orb_true_r. reflexivity.
  - cbn [orb].
    destruct (isNaN (Inventory.amount row + Routes.amount body) || isNaN (Routes.rate body));
      reflexivity.
Qed.

(** A buy that finds the currency without a row inserts the row and
    works on the object it gave to the insert. *)
Lemma sqlite_buy_created (body : Routes.Request) (db : SqliteStorage.t)
  (currency : Currency.t) :
  SqliteStorage.getCurrency (Routes.currencyId body) db = Some currency ->
  SqliteStorage.getInventoryByCurrencyId (Routes.currencyId body) db = None ->
  Routes.run (Routes.post_transactions_buy body) db
  = let held := updateAverageOnBuy (zero, Routes.rate body) (purchase body) in
    let db0 :=
      fst (SqliteStorage.createInventoryItem
             (InsertInventory.Build (Routes.currencyId body) zero (Routes.rate body))
             db) in
    if isNaN (fst held) || isNaN (snd held)
    then (db0, Routes.Failed "Failed to create transaction")
    else
      let db1 :=
        SqliteStorage.with_inventory db0
          (map (SqliteStorage.set_inventory_row (SqliteStorage.inventory_seq db + 1)
                  (fst held) (snd held))
               (SqliteStorage.inventory db0))
          (SqliteStorage.inventory_seq db0) in
      let created := SqliteStorage.createTransaction (buy_row body) db1 in
      (fst created, Routes.Created (snd created)).
Proof.
  intros Hc Hi. run_route. rewrite Hc. cbn [fst snd tl]. rewrite Hi.
  cbn [option_map SqliteStorage.createInventoryItem SqliteStorage.inserted
       Js.amount Js.avgBuyPrice Js.id Js.Number Inventory.id Inventory.amount
       Inventory.avgBuyPrice InsertInventory.currencyId InsertInventory.amount
       InsertInventory.avgBuyPrice fst snd tl].
  unfold SqliteStorage.updateInventoryItem, updateAverageOnBuy, purchase.
  cbn [fst snd].
  destruct (isNaN (zero + Routes.amount body) || isNaN _); reflexivity.
Qed.

(** The sell route on this store: the object it selects has no
    [avgBuyPrice], so past the stock check the price it hands to the
    UPDATE is NaN and the statement throws.  No sell writes, and none is
    answered 201. *)
Lemma sqlite_sell (today : string) (body : Routes.Request) (db : SqliteStorage.t) :
  Routes.run (Routes.post_transactions_sell today body) db
  = match SqliteStorage.getInventoryByCurrencyId (Routes.currencyId body) db with
    | None => (db, Routes.NotFound "Inventory not found for this currency")
    | Some row =>
        if Inventory.amount row <? Routes.amount body
        then (db, Routes.NotEnoughStock (Inventory.amount row))
        else (db, Routes.Failed "Failed to create transaction")
    end.
Proof.
  run_route.
  destruct (SqliteStorage.getInventoryByCurrencyId (Routes.currencyId body) db)
    as [row|]; [|reflexivity].
  cbn [option_map SqliteStorage.selected Js.amount Js.avgBuyPrice Js.id Js.Number
       fst snd tl].
  destruct (Inventory.amount row <? Routes.amount body); [reflexivity|].
  unfold SqliteStorage.updateInventoryItem. rewrite isNaN_nan, orb_true_r.
  reflexivity.
Qed.

Lemma sqlite_sell_writes_nothing (today : string) (body : Routes.Request)
  (db : SqliteStorage.t) :
  fst (Routes.run (Routes.post_transactions_sell today body) db) = db.
Proof.
  rewrite sqlite_sell.
  destruct (SqliteStorage.getInventoryByCurrencyId _ db) as [row|]; [|reflexivity].
  destruct (Inventory.amount row <? Routes.amount body); reflexivity.
Qed.

Lemma sqlite_sell_never_created (today : string) (body : Routes.Request)
  (db : SqliteStorage.t) (transaction : Transaction.t) :
  snd (Routes.run (Routes.post_transactions_sell today body) db)
  <> Routes.Created transaction.
Proof.
  rewrite sqlite_sell.
  destruct (SqliteStorage.getInventoryByCurrencyId _ db) as [row|]; [|discriminate].
  destruct (Inventory.amount row <? Routes.amount body); discriminate.
Qed.

(** The row a buy answered 201 has appended to the log. *)
Lemma sqlite_buy_logged (body : Routes.Request) (db : SqliteStorage.t)
  (transaction : Transaction.t) :
  snd (Routes.run (Routes.post_transactions_buy body) db) = Routes.Created transaction ->
  transaction
  = Transaction.Build (SqliteStorage.transactions_seq db + 1) (Routes.currencyId body)
      BUY (Routes.amount body) (Routes.rate body) (Routes.total body)
      (Routes.notes body) (Some zero)
  /\ SqliteStorage.transactions (fst (Routes.run (Routes.post_transactions_buy body) db))
     = (SqliteStorage.transactions db ++ [transaction])%list.
Proof.
  destruct (SqliteStorage.getCurrency (Routes.currencyId body) db) as [currency|] eqn:Hc.
  - destruct (SqliteStorage.getInventoryByCurrencyId (Routes.currencyId body) db)
      as [row|] eqn:Hi.
    + rewrite (sqlite_buy_found body db currency row Hc Hi).
      destruct (_ || _ || _); [discriminate|].
      cbv zeta. cbn [fst snd]. intros [= <-]. split; reflexivity.
    + rewrite (sqlite_buy_created body db currency Hc Hi). cbv zeta.
      destruct (_ || _); [discriminate|].
      cbn [fst snd]. intros [= <-]. split; reflexivity.
  - rewrite (sqlite_buy_not_found body db Hc). discriminate.
Qed.

(** The position a buy leaves that inserted the row of its currency. *)
Lemma sqlite_buy_created_position (body : Routes.Request) (db : SqliteStorage.t)
  (currency : Currency.t) :
  SqliteStorage.getCurrency (Routes.currencyId body) db = Some currency ->
  SqliteStorage.getInventoryByCurrencyId (Routes.currencyId body) db = None ->
  isNaN (fst (updateAverageOnBuy (zero, Routes.rate body) (purchase body)))
  || isNaN (snd (updateAverageOnBuy (zero, Routes.rate body) (purchase body))) = false ->
  (exists transaction,
     snd (Routes.run (Routes.post_transactions_buy body) db)
     = Routes.Created transaction)
  /\ position (Routes.currencyId body)
       (fst (Routes.run (Routes.post_transactions_buy body) db))
     = Some (updateAverageOnBuy (zero, Routes.rate body) (purchase body)).
Proof.
  intros Hc Hi Hnum. rewrite (sqlite_buy_created body db currency Hc Hi).
  cbv zeta. rewrite Hnum. cbn [fst snd]. split; [eexists; reflexivity|].
  unfold position, SqliteStorage.getInventoryByCurrencyId in *.
  cbn [SqliteStorage.createTransaction SqliteStorage.createInventoryItem
       SqliteStorage.with_transactions SqliteStorage.with_inventory
       SqliteStorage.inventory fst snd InsertInventory.currencyId
       InsertInventory.amount InsertInventory.avgBuyPrice].
  set (row := Inventory.Build (SqliteStorage.inventory_seq db + 1)
                (Routes.currencyId body) zero (Routes.rate body)).
  rewrite (find_set_inventory_row (Routes.currencyId body) _ _ row).
  - cbn [Inventory.amount Inventory.avgBuyPrice].
    destruct (updateAverageOnBuy _ _). reflexivity.
  - rewrite find_app, Hi. simpl. rewrite Z.eqb_refl. reflexivity.
Qed.

End SqliteFacts.

(** ** What one request does to the in-memory store *)

Section MemFacts.
Local Open Scope num_scope.
Variable today : string.
Local Abbreviation mem := (MemStorage.storage today).

Lemma map_get_set {K V : Type} (same : K -> K -> bool) (k : K) (v : V)
  (m : list (K * V)) :
  same k k = true ->
  MemStorage.map_get same k (MemStorage.map_set same k v m) = Some v.
Proof.
  intros Hk. induction m as [|[k' v'] m IH]; simpl.
  - rewrite Hk. reflexivity.
  - destruct (same k' k) eqn:Hk'; simpl; rewrite Hk'; [reflexivity | exact IH].
Qed.

Lemma map_set_keys {V : Type} (k : Z) (v old : V) (m : list (Z * V)) :
  MemStorage.map_get Z.eqb k m = Some old ->
  map fst (MemStorage.map_set Z.eqb k v m) = map fst m.
Proof.
  induction m as [|[k' v'] m IH]; simpl; [discriminate|].
  destruct (k' =? k)%Z; [reflexivity|].
  intros H. simpl. rewrite (IH H). reflexivity.
Qed.

(** The item found for a currency is the one kept under its id, and
    what is put in its place is found for the currency it is of. *)
Lemma mem_find_set (c : Z) (item item' : MemStorage.Item)
  (entries : list (Z * MemStorage.Item)) :
  NoDup (map fst entries) ->
  Forall (fun entry => fst entry = MemStorage.id (snd entry)) entries ->
  find (fun i => (MemStorage.currencyId i =? c)%Z) (map snd entries) = Some item ->
  MemStorage.currencyId item' = c ->
  MemStorage.map_get Z.eqb (MemStorage.id item) entries = Some item
  /\ find (fun i => (MemStorage.currencyId i =? c)%Z)
          (map snd (MemStorage.map_set Z.eqb (MemStorage.id item) item' entries))
     = Some item'.
Proof.
  intros Hnodup Hkeyed Hfind Hc.
  induction entries as [|[k v] entries IH]; [discriminate|].
  inversion Hnodup as [|? ? Hfresh Hnodup']; subst.
  inversion Hkeyed as [|? ? Hk Hkeyed']; subst. cbn [fst snd] in *.
  cbn [map snd find] in Hfind. cbn [MemStorage.map_get MemStorage.map_set].
  destruct (MemStorage.currencyId v =? MemStorage.currencyId item')%Z eqn:Hv.
  - injection Hfind as ->. rewrite Hk, Z.eqb_refl. split; [reflexivity|].
    cbn [map snd find]. rewrite Z.eqb_refl. reflexivity.
  - destruct (IH Hnodup' Hkeyed' Hfind) as [Hget Hset].
    assert (Hne : (k =? MemStorage.id item)%Z = false).
    { apply Z.eqb_neq. intros ->. apply Hfresh.
      apply find_some in Hfind. destruct Hfind as [Hin _].
      apply in_map_iff in Hin. destruct Hin as ([k' v'] & Hv' & Hin).
      cbn [snd] in Hv'. subst v'.
      rewrite Forall_forall in Hkeyed'. specialize (Hkeyed' _ Hin).
      cbn [fst snd] in Hkeyed'. subst k'.
      apply in_map_iff. exists (MemStorage.id item, item). split; [reflexivity|exact Hin]. }
    rewrite Hne. split; [exact Hget|].
    cbn [map snd find]. rewrite Hv. exact Hset.
Qed.

(** Putting an item under a key that is there, with the id of the item
    that was there, keeps the keys as they are. *)
Lemma mem_keyed_set (item item' : MemStorage.Item)
  (entries : list (Z * MemStorage.Item)) :
  NoDup (map fst entries) ->
  Forall (fun entry => fst entry = MemStorage.id (snd entry)) entries ->
  MemStorage.map_get Z.eqb (MemStorage.id item) entries = Some item ->
  MemStorage.id item' = MemStorage.id item ->
  NoDup (map fst (MemStorage.map_set Z.eqb (MemStorage.id item) item' entries))
  /\ Forall (fun entry => fst entry = MemStorage.id (snd entry))
            (MemStorage.map_set Z.eqb (MemStorage.id item) item' entries).
Proof.
  intros Hnodup Hkeyed Hget Hid.
  rewrite (map_set_keys _ item' item _ Hget). split; [exact Hnodup|].
  clear Hnodup. induction entries as [|[k v] entries IH]; [discriminate|].
  inversion Hkeyed as [|? ? Hk Hkeyed']; subst. cbn [fst snd] in *.
  cbn [MemStorage.map_get] in Hget. cbn [MemStorage.map_set].
  destruct (k =? MemStorage.id item)%Z eqn:Hv.
  - constructor; [|exact Hkeyed']. cbn [fst snd].
    apply Z.eqb_eq in Hv. rewrite Hid. exact Hv.
  - constructor; [exact Hk|]. apply IH; assumption.
Qed.

Lemma mem_buy_not_found (body : Routes.Request) (s : MemStorage.t) :
  MemStorage.getCurrency (Routes.currencyId body) s = None ->
  Routes.run (Routes.post_transactions_buy (storage := mem) body) s
  = (s, Routes.NotFound "Currency not found").
Proof. intros Hc. run_route. rewrite Hc. reflexivity. Qed.

Lemma mem_buy_found (body : Routes.Request) (s : MemStorage.t)
  (currency : Currency.t) (item : MemStorage.Item) :
  MemStorage.getCurrency (Routes.currencyId body) s = Some currency ->
  MemStorage.getInventoryByCurrencyId (Routes.currencyId body) s = Some item ->
  Routes.run (Routes.post_transactions_buy (storage := mem) body) s
  = let held :=
      updateAverageOnBuy (MemStorage.amount item, MemStorage.avgBuyPrice item)
        (purchase body) in
    let s1 :=
      fst (MemStorage.updateInventoryItem (MemStorage.id item)
             (fst held) (snd held) None s) in
    let created := MemStorage.createTransaction today (buy_row body) s1 in
    (fst created, Routes.Created (snd created)).
Proof.
  intros Hc Hi. run_route. rewrite Hc. cbn [fst snd tl]. rewrite Hi.
  cbn [option_map MemStorage.object Js.amount Js.avgBuyPrice Js.id Js.Number
       fst snd tl].
  unfold updateAverageOnBuy, purchase. cbn [fst snd].
  destruct (MemStorage.createTransaction today _ _). reflexivity.
Qed.

Lemma mem_buy_created (body : Routes.Request) (s : MemStorage.t)
  (currency : Currency.t) :
  MemStorage.getCurrency (Routes.currencyId body) s = Some currency ->
  MemStorage.getInventoryByCurrencyId (Routes.currencyId body) s = None ->
  Routes.run (Routes.post_transactions_buy (storage := mem) body) s
  = let held := updateAverageOnBuy (zero, Routes.rate body) (purchase body) in
    let s0 :=
      fst (MemStorage.createInventoryItem
             (InsertInventory.Build (Routes.currencyId body) zero (Routes.rate body))
             s) in
    let s1 :=
      fst (MemStorage.updateInventoryItem (MemStorage.inventoryCurrentId s)
             (fst held) (snd held) None s0) in
    let created := MemStorage.createTransaction today (buy_row body) s1 in
    (fst created, Routes.Created (snd created)).
Proof.
  intros Hc Hi. run_route. rewrite Hc. cbn [fst snd tl]. rewrite Hi.
  cbn [option_map MemStorage.createInventoryItem MemStorage.object
       Js.amount Js.avgBuyPrice Js.id Js.Number MemStorage.id MemStorage.amount
       MemStorage.avgBuyPrice InsertInventory.currencyId InsertInventory.amount
       InsertInventory.avgBuyPrice fst snd tl].
  unfold updateAverageOnBuy, purchase. cbn [fst snd].
  destruct (MemStorage.createTransaction today _ _). reflexivity.
Qed.

Lemma mem_sell (body : Routes.Request) (s : MemStorage.t) :
  Routes.run (Routes.post_transactions_sell (storage := mem) today body) s
  = match MemStorage.getInventoryByCurrencyId (Routes.currencyId body) s with
    | None => (s, Routes.NotFound "Inventory not found for this currency")
    | Some item =>
        if MemStorage.amount item <? Routes.amount body
        then (s, Routes.NotEnoughStock (MemStorage.amount item))
        else
          let s1 :=
            fst (MemStorage.updateInventoryItem (MemStorage.id item)
                   (MemStorage.amount item - Routes.amount body)
                   (MemStorage.avgBuyPrice item) None s) in
          let created :=
            MemStorage.createTransaction today
              (sell_row (MemStorage.avgBuyPrice item) body) s1 in
          (fst (MemStorage.createOrUpdateDailyStats
                  (mem_folded today (Routes.amount body
                               * (Routes.rate body - MemStorage.avgBuyPrice item))
                     (fst created))
                  (fst created)),
           Routes.Created (snd created))
    end.
Proof.
  run_route.
  destruct (MemStorage.getInventoryByCurrencyId (Routes.currencyId body) s)
    as [item|]; [|reflexivity].
  cbn [option_map MemStorage.object Js.amount Js.avgBuyPrice Js.id Js.Number
       fst snd tl].
  destruct (MemStorage.amount item <? Routes.amount body); [reflexivity|].
  unfold sell_row, mem_folded.
  destruct (MemStorage.createTransaction today _ _) as [s2 transaction].
  cbn [fst snd tl].
  destruct (MemStorage.getDailyStats today s2) as [stat|];
    cbn [option_map MemStorage.stats_object Js.profit Js.transactionCount
         Js.plus_one MemStorage.upsert Js.stats_transactionCount Js.date
         Js.stats_profit fst snd tl];
    reflexivity.
Qed.


(** What the methods leave alone. *)
Lemma mem_upsert_frame (stats : InsertDailyStats.t) (s : MemStorage.t) :
  MemStorage.inventoryItems (fst (MemStorage.createOrUpdateDailyStats stats s))
  = MemStorage.inventoryItems s
  /\ MemStorage.currencies (fst (MemStorage.createOrUpdateDailyStats stats s))
     = MemStorage.currencies s
  /\ MemStorage.transactionsList (fst (MemStorage.createOrUpdateDailyStats stats s))
     = MemStorage.transactionsList s.
Proof.
  unfold MemStorage.createOrUpdateDailyStats.
  destruct (MemStorage.map_get String.eqb _ _); repeat split.
Qed.

Lemma mem_createTransaction_frame (row : InsertTransaction.t) (s : MemStorage.t) :
  MemStorage.inventoryItems (fst (MemStorage.createTransaction today row s))
  = MemStorage.inventoryItems s
  /\ MemStorage.currencies (fst (MemStorage.createTransaction today row s))
     = MemStorage.currencies s.
Proof.
  unfold MemStorage.createTransaction. cbv zeta. cbn [fst].
  destruct (MemStorage.getDailyStats today _);
    match goal with
    | |- context [MemStorage.createOrUpdateDailyStats ?p ?st] =>
        destruct (mem_upsert_frame p st) as (-> & -> & _)
    end; split; reflexivity.
Qed.

Lemma mem_createTransaction_logged (row : InsertTransaction.t) (s : MemStorage.t) :
  mem_logged (snd (MemStorage.createTransaction today row s))
    (fst (MemStorage.createTransaction today row s)).
Proof.
  unfold mem_logged, MemStorage.createTransaction. cbv zeta. cbn [fst snd].
  destruct (MemStorage.getDailyStats today _);
    match goal with
    | |- context [MemStorage.createOrUpdateDailyStats ?p ?st] =>
        destruct (mem_upsert_frame p st) as (_ & _ & ->)
    end; cbn [MemStorage.transactionsList Transaction.id];
    apply map_get_set; apply Z.eqb_refl.
Qed.

Lemma mem_update_found (item : MemStorage.Item) (m p : num) (s : MemStorage.t) :
  MemStorage.map_get Z.eqb (MemStorage.id item) (MemStorage.inventoryItems s)
  = Some item ->
  MemStorage.inventoryItems
    (fst (MemStorage.updateInventoryItem (MemStorage.id item) m p None s))
  = MemStorage.map_set Z.eqb (MemStorage.id item)
      (MemStorage.Build_Item (MemStorage.id item) (MemStorage.currencyId item)
         m p (Some (m * p)))
      (MemStorage.inventoryItems s)
  /\ MemStorage.currencies
       (fst (MemStorage.updateInventoryItem (MemStorage.id item) m p None s))
     = MemStorage.currencies s.
Proof.
  intros Hget. unfold MemStorage.updateInventoryItem. rewrite Hget.
  split; reflexivity.
Qed.

(** The position after an update of the item found for a currency. *)
Lemma mem_update_position (c : Z) (item : MemStorage.Item) (m p : num)
  (s : MemStorage.t) :
  mem_keyed s ->
  MemStorage.getInventoryByCurrencyId c s = Some item ->
  let s1 := fst (MemStorage.updateInventoryItem (MemStorage.id item) m p None s) in
  mem_position c s1 = Some (m, p)
  /\ mem_keyed s1
  /\ MemStorage.currencies s1 = MemStorage.currencies s.
Proof.
  intros [Hnodup Hkeyed] Hfind. cbv zeta.
  set (item' := MemStorage.Build_Item (MemStorage.id item) (MemStorage.currencyId item)
                  m p (Some (m * p))).
  assert (Hc : MemStorage.currencyId item' = c).
  { apply find_some in Hfind. destruct Hfind as [_ Hc]. apply Z.eqb_eq in Hc.
    exact Hc. }
  destruct (mem_find_set c item item' _ Hnodup Hkeyed Hfind Hc) as [Hget Hset].
  destruct (mem_update_found item m p s Hget) as [Hitems Hcur].
  split; [|split; [|exact Hcur]].
  - unfold mem_position, MemStorage.getInventoryByCurrencyId.
    rewrite Hitems. fold item'. rewrite Hset. reflexivity.
  - unfold mem_keyed. rewrite Hitems. fold item'.
    apply (mem_keyed_set item item'); auto.
Qed.

Lemma mem_buy_position (body : Routes.Request) (s : MemStorage.t)
  (currency : Currency.t) (item : MemStorage.Item) :
  mem_keyed s ->
  MemStorage.getCurrency (Routes.currencyId body) s = Some currency ->
  MemStorage.getInventoryByCurrencyId (Routes.currencyId body) s = Some item ->
  let s' := fst (Routes.run (Routes.post_transactions_buy (storage := mem) body) s) in
  mem_position (Routes.currencyId body) s'
  = Some (updateAverageOnBuy (MemStorage.amount item, MemStorage.avgBuyPrice item)
            (purchase body))
  /\ mem_keyed s'
  /\ MemStorage.getCurrency (Routes.currencyId body) s' = Some currency.
Proof.
  intros Hkeys Hc Hi. cbv zeta. rewrite (mem_buy_found body s currency item Hc Hi).
  cbv zeta. cbn [fst].
  set (held := updateAverageOnBuy _ _).
  destruct (mem_update_position (Routes.currencyId body) item (fst held) (snd held)
              s Hkeys Hi) as (Hpos & Hkeys1 & Hcur1).
  set (s1 := fst (MemStorage.updateInventoryItem _ _ _ _ s)) in *.
  destruct (mem_createTransaction_frame (buy_row body) s1) as [Hitems Hcur].
  unfold mem_position, MemStorage.getInventoryByCurrencyId, mem_keyed,
    MemStorage.getCurrency in *.
  rewrite Hitems, Hcur, Hcur1. rewrite Hpos.
  destruct held. auto.
Qed.

Lemma mem_sell_position (body : Routes.Request) (s : MemStorage.t)
  (item : MemStorage.Item) :
  mem_keyed s ->
  MemStorage.getInventoryByCurrencyId (Routes.currencyId body) s = Some item ->
  (MemStorage.amount item <? Routes.amount body) = false ->
  mem_position (Routes.currencyId body)
    (fst (Routes.run (Routes.post_transactions_sell (storage := mem) today body) s))
  = Some (MemStorage.amount item - Routes.amount body, MemStorage.avgBuyPrice item).
Proof.
  intros Hkeys Hi Hlt. rewrite mem_sell, Hi, Hlt. cbv zeta. cbn [fst].
  destruct (mem_update_position (Routes.currencyId body) item
              (MemStorage.amount item - Routes.amount body)
              (MemStorage.avgBuyPrice item) s Hkeys Hi) as (Hpos & _ & _).
  set (s1 := fst (MemStorage.updateInventoryItem _ _ _ _ s)) in *.
  set (created := MemStorage.createTransaction today _ s1).
  destruct (mem_upsert_frame
              (mem_folded today
                 (Routes.amount body * (Routes.rate body - MemStorage.avgBuyPrice item))
                 (fst created))
              (fst created)) as (Hitems & _ & _).
  destruct (mem_createTransaction_frame
              (sell_row (MemStorage.avgBuyPrice item) body) s1) as [Hitems1 _].
  unfold mem_position, MemStorage.getInventoryByCurrencyId in *.
  rewrite Hitems. unfold created. rewrite Hitems1. exact Hpos.
Qed.

(** The position after a sequence of buys of one currency. *)
Lemma mem_buy_all_position (c : Z) (bodies : list Routes.Request) :
  forall (s : MemStorage.t) (currency : Currency.t) (item : MemStorage.Item),
    mem_keyed s ->
    MemStorage.getCurrency c s = Some currency ->
    MemStorage.getInventoryByCurrencyId c s = Some item ->
    Forall (fun body => Routes.currencyId body = c) bodies ->
    mem_position c (buy_all (storage := mem) bodies s)
    = Some (fold_left updateAverageOnBuy (map purchase bodies)
              (MemStorage.amount item, MemStorage.avgBuyPrice item)).
Proof.
  induction bodies as [|body bodies IH]; intros s currency item Hkeys Hc Hi Hall.
  - unfold mem_position. cbn. rewrite Hi. reflexivity.
  - inversion Hall as [|? ? Hbody Hrest]; subst.
    destruct (mem_buy_position body s currency item Hkeys Hc Hi)
      as (Hpos & Hkeys' & Hc').
    cbn [buy_all fold_left map].
    set (s' := fst (Routes.run (Routes.post_transactions_buy body) s)) in *.
    unfold mem_position in Hpos.
    destruct (MemStorage.getInventoryByCurrencyId (Routes.currencyId body) s')
      as [item'|] eqn:Hi'; [|discriminate].
    assert (Hheld : (MemStorage.amount item', MemStorage.avgBuyPrice item')
                    = updateAverageOnBuy
                        (MemStorage.amount item, MemStorage.avgBuyPrice item)
                        (purchase body)) by congruence.
    change (fold_left _ bodies s') with (buy_all (storage := mem) bodies s').
    rewrite (IH s' currency item' Hkeys' Hc' Hi' Hrest), Hheld. reflexivity.
Qed.

(** The stat of the payload's date after the upsert. *)
Lemma mem_upsert_stat (stats : InsertDailyStats.t) (s : MemStorage.t) :
  mem_stat_of (InsertDailyStats.date stats)
    (fst (MemStorage.createOrUpdateDailyStats stats s))
  = Some (InsertDailyStats.profit stats, InsertDailyStats.transactionCount stats).
Proof.
  unfold mem_stat_of, MemStorage.createOrUpdateDailyStats, MemStorage.getDailyStats.
  destruct (MemStorage.map_get String.eqb _ (MemStorage.stats s));
    cbn [fst MemStorage.stats];
    rewrite (map_get_set String.eqb) by apply String.eqb_refl; reflexivity.
Qed.

Lemma mem_update_stats_frame (id : Z) (m p : num) (s : MemStorage.t) :
  MemStorage.stats (fst (MemStorage.updateInventoryItem id m p None s))
  = MemStorage.stats s.
Proof.
  unfold MemStorage.updateInventoryItem.
  destruct (MemStorage.map_get Z.eqb id (MemStorage.inventoryItems s)); reflexivity.
Qed.

(** [createTransaction] folds the row it stores into the stat of the
    day, whatever the type of the row. *)
Lemma mem_createTransaction_stat (row : InsertTransaction.t) (s : MemStorage.t) :
  mem_stat_of today (fst (MemStorage.createTransaction today row s))
  = fold_one (mem_stat_of today s)
      (match InsertTransaction.profit row with Some p => p | None => zero end).
Proof.
  unfold MemStorage.createTransaction. cbv zeta. cbn [fst Transaction.profit].
  unfold mem_stat_of at 2. unfold MemStorage.getDailyStats.
  cbn [MemStorage.stats].
  destruct (MemStorage.map_get String.eqb today (MemStorage.stats s)) as [stat|].
  - exact (mem_upsert_stat (InsertDailyStats.Build today _ _) _).
  - exact (mem_upsert_stat (InsertDailyStats.Build today _ _) _).
Qed.

(** The stat of the day after a request answered 201: a buy is counted
    once, with profit zero, and a sell twice, its profit added twice. *)
Lemma mem_buy_stat (body : Routes.Request) (s : MemStorage.t)
  (transaction : Transaction.t) :
  snd (Routes.run (Routes.post_transactions_buy (storage := mem) body) s)
  = Routes.Created transaction ->
  mem_stat_of today (fst (Routes.run (Routes.post_transactions_buy (storage := mem) body) s))
  = fold_one (mem_stat_of today s) zero.
Proof.
  destruct (MemStorage.getCurrency (Routes.currencyId body) s) as [currency|] eqn:Hc.
  - destruct (MemStorage.getInventoryByCurrencyId (Routes.currencyId body) s)
      as [item|] eqn:Hi; intros _.
    + rewrite (mem_buy_found body s currency item Hc Hi). cbv zeta. cbn [fst].
      rewrite mem_createTransaction_stat. cbn [buy_row InsertTransaction.profit].
      unfold mem_stat_of, MemStorage.getDailyStats.
      rewrite mem_update_stats_frame. reflexivity.
    + rewrite (mem_buy_created body s currency Hc Hi). cbv zeta. cbn [fst].
      rewrite mem_createTransaction_stat. cbn [buy_row InsertTransaction.profit].
      unfold mem_stat_of, MemStorage.getDailyStats.
      rewrite mem_update_stats_frame. reflexivity.
  - rewrite (mem_buy_not_found body s Hc). discriminate.
Qed.

Lemma mem_sell_stat (body : Routes.Request) (s : MemStorage.t)
  (transaction : Transaction.t) :
  snd (Routes.run (Routes.post_transactions_sell (storage := mem) today body) s)
  = Routes.Created transaction ->
  mem_stat_of today
    (fst (Routes.run (Routes.post_transactions_sell (storage := mem) today body) s))
  = fold_one (fold_one (mem_stat_of today s) (profit_of transaction))
      (profit_of transaction).
Proof.
  rewrite mem_sell.
  destruct (MemStorage.getInventoryByCurrencyId (Routes.currencyId body) s)
    as [item|]; [|discriminate].
  destruct (MemStorage.amount item <? Routes.amount body); [discriminate|].
  cbv zeta. cbn [fst snd]. intros [= <-].
  set (p := Routes.amount body * (Routes.rate body - MemStorage.avgBuyPrice item)).
  set (s1 := fst (MemStorage.updateInventoryItem _ _ _ _ s)).
  cbn [profit_of Transaction.profit].
  assert (Hs1 : mem_stat_of today s1 = mem_stat_of today s).
  { unfold mem_stat_of, MemStorage.getDailyStats, s1.
    rewrite mem_update_stats_frame. reflexivity. }
  pose proof (mem_createTransaction_stat
                (sell_row (MemStorage.avgBuyPrice item) body) s1) as Hs2.
  cbn [sell_row InsertTransaction.profit] in Hs2. fold p in Hs2. rewrite Hs1 in Hs2.
  set (s2 := fst (MemStorage.createTransaction today _ s1)) in *.
  rewrite <- Hs2.
  assert (Hdate : InsertDailyStats.date (mem_folded today p s2) = today).
  { unfold mem_folded. destruct (MemStorage.getDailyStats today s2); reflexivity. }
  pose proof (mem_upsert_stat (mem_folded today p s2) s2) as Hs3.
  rewrite Hdate in Hs3. rewrite Hs3.
  unfold mem_folded, mem_stat_of.
  destruct (MemStorage.getDailyStats today s2); reflexivity.
Qed.

End MemFacts.

(** ** The upsert of the three stores *)

Section Upsert.

Lemma set_daily_stats_row_date (stats : InsertDailyStats.t) (r : DailyStats.t) :
  DailyStats.date (SqliteStorage.set_daily_stats_row stats r) = DailyStats.date r.
Proof.
  unfold SqliteStorage.set_daily_stats_row.
  destruct (String.eqb (DailyStats.date r) (InsertDailyStats.date stats)); reflexivity.
Qed.

Lemma find_set_daily_stats_row_same (stats : InsertDailyStats.t)
  (rows : list DailyStats.t) (s : DailyStats.t) :
  find (fun r => String.eqb (DailyStats.date r) (InsertDailyStats.date stats)) rows
  = Some s ->
  find (fun r => String.eqb (DailyStats.date r) (InsertDailyStats.date stats))
       (map (SqliteStorage.set_daily_stats_row stats) rows)
  = Some (DailyStats.Build (DailyStats.id s) (DailyStats.date s)
            (InsertDailyStats.profit stats) (InsertDailyStats.transactionCount stats)).
Proof.
  induction rows as [|r rows IH]; simpl; [discriminate|].
  rewrite set_daily_stats_row_date.
  destruct (String.eqb (DailyStats.date r) (InsertDailyStats.date stats)) eqn:Hd.
  - intros [= ->]. unfold SqliteStorage.set_daily_stats_row. rewrite Hd. reflexivity.
  - exact IH.
Qed.

Lemma find_set_daily_stats_row_other (stats : InsertDailyStats.t) (date : string)
  (rows : list DailyStats.t) :
  find (fun r => String.eqb (DailyStats.date r) date)
       (map (SqliteStorage.set_daily_stats_row stats) rows)
  = match find (fun r => String.eqb (DailyStats.date r) date) rows with
    | Some r => Some (SqliteStorage.set_daily_stats_row stats r)
    | None => None
    end.
Proof.
  induction rows as [|r rows IH]; simpl; [reflexivity|].
  rewrite set_daily_stats_row_date.
  destruct (String.eqb (DailyStats.date r) date); [reflexivity | exact IH].
Qed.

(** After the upsert the row of the payload's date carries the payload's
    profit and count, whatever the table held. *)
Lemma upsert_same (stats : InsertDailyStats.t) (db : SqliteStorage.t) :
  exists row,
    SqliteStorage.getDailyStats (InsertDailyStats.date stats)
      (fst (SqliteStorage.createOrUpdateDailyStats stats db)) = Some row
    /\ DailyStats.date row = InsertDailyStats.date stats
    /\ DailyStats.profit row = InsertDailyStats.profit stats
    /\ DailyStats.transactionCount row = InsertDailyStats.transactionCount stats.
Proof.
  unfold SqliteStorage.createOrUpdateDailyStats. simpl.
  destruct (SqliteStorage.getDailyStats (InsertDailyStats.date stats) db)
    as [s|] eqn:Hs; unfold SqliteStorage.getDailyStats in *; simpl.
  - rewrite (find_set_daily_stats_row_same stats _ s Hs).
    eexists. split; [reflexivity|]. simpl. repeat split.
    apply find_some in Hs. apply String.eqb_eq. apply Hs.
  - rewrite find_app, Hs. simpl. rewrite String.eqb_refl.
    eexists. split; [reflexivity|]. simpl. repeat split.
Qed.


(** C10.  [createOrUpdateDailyStats] replaces: in each of the three
    stores, whatever was stored for the payload's date before the call,
    the stat stored for that date after it has exactly the payload's
    profit and transaction count.  Nothing is added to what was there:
    the adding is done by the sell route, which hands the upsert the
    sum of the stored profit and its own, and the count plus one. *)
Theorem createOrUpdateDailyStats_replaces (stats : InsertDailyStats.t) :
  (forall db : SqliteStorage.t,
     carries stats
       (SqliteStorage.getDailyStats (InsertDailyStats.date stats)
          (fst (SqliteStorage.createOrUpdateDailyStats stats db))))
  /\ (forall s : MemStorage.t,
        carries stats
          (MemStorage.getDailyStats (InsertDailyStats.date stats)
             (fst (MemStorage.createOrUpdateDailyStats stats s))))
  /\ (forall db : DatabaseStorage.t,
        carries stats
          (DatabaseStorage.getDailyStats (InsertDailyStats.date stats)
             (fst (DatabaseStorage.createOrUpdateDailyStats stats db))))
  /\ (forall (today : string) (body : Routes.Request) (db db' : SqliteStorage.t)
             (transaction : Transaction.t),
        Routes.run (Routes.post_transactions_sell today body) db
        = (db', Routes.Created transaction) ->
        stat_of today db' = fold_one (stat_of today db) (profit_of transaction)).
Proof.
  split; [|split; [|split]].
  - intros db. destruct (upsert_same stats db) as (row & Hrow & _ & Hp & Hn).
    exists row. auto.
  - intros s. unfold MemStorage.createOrUpdateDailyStats, MemStorage.getDailyStats.
    destruct (MemStorage.map_get String.eqb (InsertDailyStats.date stats)
                (MemStorage.stats s)) as [existingStat|];
      simpl; rewrite (map_get_set String.eqb) by apply String.eqb_refl; eexists; split; try reflexivity; split; reflexivity.
  - intros db. unfold DatabaseStorage.createOrUpdateDailyStats.
    destruct (DatabaseStorage.getDailyStats (InsertDailyStats.date stats) db)
      as [existingStat|] eqn:Hs; unfold DatabaseStorage.getDailyStats in *; simpl.
    + change (map _ (DatabaseStorage.dailyStats db))
        with (map (SqliteStorage.set_daily_stats_row stats)
                (DatabaseStorage.dailyStats db)).
      rewrite (find_set_daily_stats_row_same stats _ existingStat Hs).
      eexists. split; [reflexivity|]. split; reflexivity.
    + rewrite find_app, Hs. simpl. rewrite String.eqb_refl.
      eexists. split; [reflexivity|]. split; reflexivity.
  - intros today body db db' transaction Hrun. exfalso.
    apply (sqlite_sell_never_created today body db transaction).
    rewrite Hrun. reflexivity.
Qed.

End Upsert.

(** ** Reset *)

Section Reset.

(** What the SQLite reset does: every amount is zero, the log is empty,
    every daily stat is zeroed, the average prices are the ones that
    were there, and a second reset changes nothing more. *)
Lemma sqlite_reset_amounts (db : SqliteStorage.t) :
  Forall (fun i => Inventory.amount i = zero)
         (SqliteStorage.inventory (fst (SqliteStorage.resetInventory db))).
Proof.
  simpl. apply Forall_forall. intros i Hin.
  apply in_map_iff in Hin. destruct Hin as (j & <- & _). reflexivity.
Qed.

Lemma sqlite_reset_transactions (db : SqliteStorage.t) :
  SqliteStorage.transactions (fst (SqliteStorage.resetInventory db)) = [].
Proof. reflexivity. Qed.

Lemma sqlite_reset_daily_stats (db : SqliteStorage.t) :
  Forall (fun s => DailyStats.profit s = zero /\ DailyStats.transactionCount s = 0)
         (SqliteStorage.daily_stats (fst (SqliteStorage.resetInventory db))).
Proof.
  simpl. apply Forall_forall. intros s Hin.
  apply in_map_iff in Hin. destruct Hin as (r & <- & _). split; reflexivity.
Qed.

Lemma sqlite_reset_keeps_avgBuyPrice (db : SqliteStorage.t) :
  map Inventory.avgBuyPrice
      (SqliteStorage.inventory (fst (SqliteStorage.resetInventory db)))
  = map Inventory.avgBuyPrice (SqliteStorage.inventory db).
Proof. simpl. rewrite map_map. reflexivity. Qed.

Lemma sqlite_reset_idempotent (db : SqliteStorage.t) :
  fst (SqliteStorage.resetInventory (fst (SqliteStorage.resetInventory db)))
  = fst (SqliteStorage.resetInventory db).
Proof.
  unfold SqliteStorage.resetInventory. simpl. rewrite !map_map. reflexivity.
Qed.

(** A reset creates no stat: a day without a row stays without one. *)
Lemma sqlite_reset_creates_no_stat (today : string) (db : SqliteStorage.t) :
  SqliteStorage.getDailyStats today db = None ->
  SqliteStorage.getDailyStats today (fst (SqliteStorage.resetInventory db)) = None.
Proof.
  unfold SqliteStorage.getDailyStats. simpl.
  induction (SqliteStorage.daily_stats db) as [|s rows IH]; simpl; [reflexivity|].
  destruct (String.eqb (DailyStats.date s) today); [discriminate | exact IH].
Qed.

(** *** The in-memory reset *)

Lemma map_get_app_absent {V : Type} (k : Z) (done rest : list (Z * V)) :
  ~ In k (map fst done) ->
  MemStorage.map_get Z.eqb k (done ++ rest) = MemStorage.map_get Z.eqb k rest.
Proof.
  induction done as [|[k' v'] done IH]; simpl; intros Hk; [reflexivity|].
  destruct (Z.eqb_spec k' k) as [->|_].
  - exfalso. apply Hk. left. reflexivity.
  - apply IH. intros Hin. apply Hk. right. exact Hin.
Qed.

Lemma map_set_app_absent {V : Type} (k : Z) (v : V) (done rest : list (Z * V)) :
  ~ In k (map fst done) ->
  MemStorage.map_set Z.eqb k v (done ++ rest)
  = (done ++ MemStorage.map_set Z.eqb k v rest)%list.
Proof.
  induction done as [|[k' v'] done IH]; simpl; intros Hk; [reflexivity|].
  destruct (Z.eqb_spec k' k) as [->|_].
  - exfalso. apply Hk. left. reflexivity.
  - f_equal. apply IH. intros Hin. apply Hk. right. exact Hin.
Qed.

Lemma reset_entry_step (s st : MemStorage.t) (id : Z) (item : MemStorage.Item)
  (done todo : list (Z * MemStorage.Item)) :
  MemStorage.inventoryItems st = (done ++ (id, item) :: todo)%list ->
  MemStorage.currencies st = MemStorage.currencies s ->
  ~ In id (map fst done) ->
  MemStorage.inventoryItems (MemStorage.reset_entry st (id, item))
  = ((done ++ [reseed s (id, item)]) ++ todo)%list
  /\ MemStorage.currencies (MemStorage.reset_entry st (id, item))
     = MemStorage.currencies s
  /\ MemStorage.stats (MemStorage.reset_entry st (id, item)) = MemStorage.stats st
  /\ MemStorage.statsCurrentId (MemStorage.reset_entry st (id, item))
     = MemStorage.statsCurrentId st.
Proof.
  intros Hitems Hcur Hfresh.
  unfold MemStorage.reset_entry, reseed, MemStorage.getCurrency. rewrite Hcur.
  destruct (MemStorage.map_get Z.eqb (MemStorage.currencyId item)
              (MemStorage.currencies s)) as [currency|].
  - unfold MemStorage.updateInventoryItem. rewrite Hitems.
    rewrite (map_get_app_absent id done _ Hfresh). simpl.
    rewrite Z.eqb_refl. simpl.
    rewrite (map_set_app_absent id _ done _ Hfresh). simpl.
    rewrite Z.eqb_refl, <- app_assoc. repeat split. exact Hcur.
  - rewrite <- app_assoc. repeat split; assumption.
Qed.

Lemma reset_entries (s : MemStorage.t) (todo : list (Z * MemStorage.Item)) :
  forall (done : list (Z * MemStorage.Item)) (st : MemStorage.t),
    MemStorage.inventoryItems st = (done ++ todo)%list ->
    MemStorage.currencies st = MemStorage.currencies s ->
    NoDup (map fst (done ++ todo)) ->
    MemStorage.inventoryItems (fold_left MemStorage.reset_entry todo st)
    = (done ++ map (reseed s) todo)%list
    /\ MemStorage.stats (fold_left MemStorage.reset_entry todo st) = MemStorage.stats st
    /\ MemStorage.statsCurrentId (fold_left MemStorage.reset_entry todo st)
       = MemStorage.statsCurrentId st.
Proof.
  induction todo as [|[id item] todo IH]; intros done st Hitems Hcur Hnodup.
  - simpl. rewrite Hitems. repeat split.
  - cbn [fold_left map].
    assert (Hfresh : ~ In id (map fst done)).
    { rewrite map_app in Hnodup. simpl in Hnodup.
      apply NoDup_remove_2 in Hnodup. intros Hin. apply Hnodup.
      apply in_or_app. left. exact Hin. }
    destruct (reset_entry_step s st id item done todo Hitems Hcur Hfresh)
      as (Hitems1 & Hcur1 & Hstats1 & Hid1).
    assert (Hkeys : map fst ((done ++ [reseed s (id, item)]) ++ todo)
                    = map fst (done ++ (id, item) :: todo)).
    { rewrite <- app_assoc. rewrite !map_app. simpl. f_equal. f_equal.
      unfold reseed. destruct (MemStorage.getCurrency _ s); reflexivity. }
    rewrite <- Hkeys in Hnodup.
    destruct (IH _ _ Hitems1 Hcur1 Hnodup) as (Hitems2 & Hstats2 & Hid2).
    rewrite Hitems2, Hstats2, Hid2, <- app_assoc. repeat split; assumption.
Qed.

(** The in-memory reset, on a map whose keys are distinct (as the keys
    of a [Map] are): every position whose currency exists holds zero at
    the current rate of its currency, no transaction is left, and the
    stat of the day reads zero and zero. *)
Lemma mem_reset_reseeds (today : string) (s : MemStorage.t) :
  NoDup (map fst (MemStorage.inventoryItems s)) ->
  MemStorage.inventoryItems (MemStorage.resetInventory today s)
  = map (reseed s) (MemStorage.inventoryItems s)
  /\ MemStorage.transactionsList (MemStorage.resetInventory today s) = []
  /\ exists stat,
       MemStorage.getDailyStats today (MemStorage.resetInventory today s) = Some stat
       /\ DailyStats.profit stat = zero
       /\ DailyStats.transactionCount stat = 0.
Proof.
  intros Hnodup.
  destruct (reset_entries s (MemStorage.inventoryItems s) [] s eq_refl eq_refl Hnodup)
    as (Hitems & _ & _).
  unfold MemStorage.resetInventory. cbv zeta.
  set (s1 := fold_left MemStorage.reset_entry (MemStorage.inventoryItems s) s) in *.
  unfold MemStorage.createOrUpdateDailyStats, MemStorage.getDailyStats.
  cbn [InsertDailyStats.date InsertDailyStats.profit InsertDailyStats.transactionCount
       MemStorage.stats].
  destruct (MemStorage.map_get String.eqb today (MemStorage.stats s1));
    cbn [fst MemStorage.inventoryItems MemStorage.transactionsList MemStorage.stats];
    rewrite (map_get_set String.eqb) by apply String.eqb_refl;
    (split; [exact Hitems|]); (split; [reflexivity|]);
    eexists; split; try reflexivity; split; reflexivity.
Qed.

End Reset.

(** ** Buys: the weighted average *)

Section Buys.
Local Open Scope num_scope.

Lemma updateAverageOnBuy_is_calculateAverageBuyPrice (held bought : num * num) :
  (fst (updateAverageOnBuy held bought) >? zero) = true ->
  snd (updateAverageOnBuy held bought)
  = calculateAverageBuyPrice (fst held) (snd held) (fst bought) (snd bought).
Proof.
  destruct held as [m p], bought as [a r]. unfold updateAverageOnBuy.
  cbn [fst snd]. intros Hpos. unfold calculateAverageBuyPrice. cbv zeta.
  rewrite Hpos, (above_zero_not_zero _ Hpos). reflexivity.
Qed.

Lemma updateAverageOnBuy_from_zero (p a r : num) :
  (a >? zero) = true ->
  updateAverageOnBuy (zero, p) (a, r) = (a, (zero * p + a * r) / a).
Proof.
  intros Hpos. unfold updateAverageOnBuy. rewrite (zero_add a Hpos), Hpos.
  reflexivity.
Qed.

(** C1, as the code has it.  The position after a sequence of buys of
    one currency is the position before it taken through
    [updateAverageOnBuy] once per buy, in order, every sum, product and
    quotient being the binary64 one: this is what the routes leave in a
    store that hands the position back with its average price (the
    in-memory store), and what a buy leaves that inserts the row of its
    currency in the SQLite store.  Where the new amount is above zero
    the new price is [calculateAverageBuyPrice], and onto an amount of
    zero it is the quotient [(0 * p + a * r) / a]. *)
Theorem weighted_average_is_folded_in_binary64 (today : string) (c : Z)
  (bodies : list Routes.Request) (s : MemStorage.t) (currency : Currency.t)
  (item : MemStorage.Item) :
  mem_keyed s ->
  MemStorage.getCurrency c s = Some currency ->
  MemStorage.getInventoryByCurrencyId c s = Some item ->
  Forall (fun body => Routes.currencyId body = c) bodies ->
  mem_position c (buy_all (storage := MemStorage.storage today) bodies s)
  = Some (fold_left updateAverageOnBuy (map purchase bodies)
            (MemStorage.amount item, MemStorage.avgBuyPrice item))
  /\ (forall held bought : num * num,
        (fst (updateAverageOnBuy held bought) >? zero) = true ->
        snd (updateAverageOnBuy held bought)
        = calculateAverageBuyPrice (fst held) (snd held) (fst bought) (snd bought))
  /\ (forall p a r : num,
        (a >? zero) = true ->
        updateAverageOnBuy (zero, p) (a, r) = (a, (zero * p + a * r) / a))
  /\ (forall (body : Routes.Request) (db : SqliteStorage.t) (row : Currency.t),
        SqliteStorage.getCurrency (Routes.currencyId body) db = Some row ->
        SqliteStorage.getInventoryByCurrencyId (Routes.currencyId body) db = None ->
        isNaN (fst (updateAverageOnBuy (zero, Routes.rate body) (purchase body)))
        || isNaN (snd (updateAverageOnBuy (zero, Routes.rate body) (purchase body)))
        = false ->
        (exists transaction,
           snd (Routes.run (Routes.post_transactions_buy body) db)
           = Routes.Created transaction)
        /\ position (Routes.currencyId body)
             (fst (Routes.run (Routes.post_transactions_buy body) db))
           = Some (updateAverageOnBuy (zero, Routes.rate body) (purchase body))).
Proof.
  intros Hkeys Hc Hi Hall. split; [|split; [|split]].
  - apply (mem_buy_all_position today c bodies s currency item); assumption.
  - apply updateAverageOnBuy_is_calculateAverageBuyPrice.
  - apply updateAverageOnBuy_from_zero.
  - apply sqlite_buy_created_position.
Qed.

End Buys.

(** ** Sells *)

Section Sells.
Local Open Scope num_scope.
Variable today : string.
Local Abbreviation mem := (MemStorage.storage today).

(** C2.  In the in-memory store, a sell of an amount that the stock
    check lets through, on a position holding [m] at average price [p],
    is answered 201 and leaves the position with amount [m - a] and
    average price [p].  In the SQLite store a sell changes no row of
    [inventory]: no average price is changed by a sell. *)
Theorem sell_keeps_avgBuyPrice (body : Routes.Request) :
  (forall (s : MemStorage.t) (item : MemStorage.Item),
     mem_keyed s ->
     MemStorage.getInventoryByCurrencyId (Routes.currencyId body) s = Some item ->
     (MemStorage.amount item <? Routes.amount body) = false ->
     (exists transaction,
        snd (Routes.run (Routes.post_transactions_sell (storage := mem) today body) s)
        = Routes.Created transaction)
     /\ mem_position (Routes.currencyId body)
          (fst (Routes.run (Routes.post_transactions_sell (storage := mem) today body) s))
        = Some (MemStorage.amount item - Routes.amount body,
                MemStorage.avgBuyPrice item))
  /\ (forall db : SqliteStorage.t,
        SqliteStorage.inventory
          (fst (Routes.run (Routes.post_transactions_sell today body) db))
        = SqliteStorage.inventory db).
Proof.
  split.
  - intros s item Hkeys Hi Hlt. split.
    + rewrite mem_sell, Hi, Hlt. eexists. reflexivity.
    + apply mem_sell_position; assumption.
  - intros db. rewrite sqlite_sell_writes_nothing. reflexivity.
Qed.

(** C3.  In both stores, a sell of more than the position holds is
    answered 400 with the amount held, before any write: the store is
    left as it was.  A sell of exactly the amount held is not answered
    by the stock check. *)
Theorem sell_insufficient_stock (body : Routes.Request) :
  (forall (db : SqliteStorage.t) (row : Inventory.t),
     SqliteStorage.getInventoryByCurrencyId (Routes.currencyId body) db = Some row ->
     ((Inventory.amount row <? Routes.amount body) = true ->
      Routes.run (Routes.post_transactions_sell today body) db
      = (db, Routes.NotEnoughStock (Inventory.amount row)))
     /\ (Routes.amount body = Inventory.amount row ->
         forall available,
           snd (Routes.run (Routes.post_transactions_sell today body) db)
           <> Routes.NotEnoughStock available))
  /\ (forall (s : MemStorage.t) (item : MemStorage.Item),
        MemStorage.getInventoryByCurrencyId (Routes.currencyId body) s = Some item ->
        ((MemStorage.amount item <? Routes.amount body) = true ->
         Routes.run (Routes.post_transactions_sell (storage := mem) today body) s
         = (s, Routes.NotEnoughStock (MemStorage.amount item)))
        /\ (Routes.amount body = MemStorage.amount item ->
            forall available,
              snd (Routes.run (Routes.post_transactions_sell (storage := mem) today body) s)
              <> Routes.NotEnoughStock available)).
Proof.
  split.
  - intros db row Hi. rewrite sqlite_sell, Hi. split.
    + intros ->. reflexivity.
    + intros -> available. rewrite lt_irrefl. discriminate.
  - intros s item Hi. rewrite mem_sell, Hi. split.
    + intros ->. reflexivity.
    + intros -> available. rewrite lt_irrefl. discriminate.
Qed.

End Sells.

(** ** The rows of the log *)

Section Log.
Local Open Scope num_scope.
Variable today : string.
Local Abbreviation mem := (MemStorage.storage today).

Lemma mem_buy_created_row (body : Routes.Request) (s : MemStorage.t)
  (currency : Currency.t) :
  MemStorage.getCurrency (Routes.currencyId body) s = Some currency ->
  exists s1,
    Routes.run (Routes.post_transactions_buy (storage := mem) body) s
    = (fst (MemStorage.createTransaction today (buy_row body) s1),
       Routes.Created (snd (MemStorage.createTransaction today (buy_row body) s1))).
Proof.
  intros Hc.
  destruct (MemStorage.getInventoryByCurrencyId (Routes.currencyId body) s)
    as [item|] eqn:Hi.
  - rewrite (mem_buy_found today body s currency item Hc Hi). eexists. reflexivity.
  - rewrite (mem_buy_created today body s currency Hc Hi). eexists. reflexivity.
Qed.

Lemma mem_sell_created_row (body : Routes.Request) (s : MemStorage.t)
  (transaction : Transaction.t) :
  snd (Routes.run (Routes.post_transactions_sell (storage := mem) today body) s)
  = Routes.Created transaction ->
  exists item s1,
    MemStorage.getInventoryByCurrencyId (Routes.currencyId body) s = Some item
    /\ (MemStorage.amount item <? Routes.amount body) = false
    /\ transaction
       = snd (MemStorage.createTransaction today
                (sell_row (MemStorage.avgBuyPrice item) body) s1)
    /\ mem_logged transaction
         (fst (Routes.run (Routes.post_transactions_sell (storage := mem) today body) s)).
Proof.
  rewrite mem_sell.
  destruct (MemStorage.getInventoryByCurrencyId (Routes.currencyId body) s)
    as [item|]; [|discriminate].
  destruct (MemStorage.amount item <? Routes.amount body) eqn:Hlt; [discriminate|].
  cbv zeta. cbn [fst snd]. intros [= <-]. eexists. eexists.
  split; [reflexivity|]. split; [exact Hlt|]. split; [reflexivity|].
  unfold mem_logged.
  match goal with
  | |- context [MemStorage.createOrUpdateDailyStats ?p ?st] =>
      destruct (mem_upsert_frame p st) as (_ & _ & ->)
  end.
  apply mem_createTransaction_logged.
Qed.

(** C4.  In the in-memory store, a sell that the stock check lets
    through is answered 201 with a SELL row whose profit is
    [amount * (rate - avgBuyPrice)], the price being the one the
    position held when the sell came in, and a buy of a currency of the
    store is answered 201 with a BUY row whose profit is zero; both rows
    are in the log.  In the SQLite store the row of a buy answered 201
    is a BUY row of profit zero, the last of the log, and no sell is
    answered 201. *)
Theorem profit_recorded (body : Routes.Request) :
  (forall (s : MemStorage.t) (item : MemStorage.Item),
     MemStorage.getInventoryByCurrencyId (Routes.currencyId body) s = Some item ->
     (MemStorage.amount item <? Routes.amount body) = false ->
     exists transaction,
       snd (Routes.run (Routes.post_transactions_sell (storage := mem) today body) s)
       = Routes.Created transaction
       /\ Transaction.type transaction = SELL
       /\ Transaction.profit transaction
          = Some (calculateProfit (Routes.amount body) (Routes.rate body)
                    (MemStorage.avgBuyPrice item))
       /\ mem_logged transaction
            (fst (Routes.run
                    (Routes.post_transactions_sell (storage := mem) today body) s)))
  /\ (forall (s : MemStorage.t) (currency : Currency.t),
        MemStorage.getCurrency (Routes.currencyId body) s = Some currency ->
        exists transaction,
          snd (Routes.run (Routes.post_transactions_buy (storage := mem) body) s)
          = Routes.Created transaction
          /\ Transaction.type transaction = BUY
          /\ Transaction.profit transaction = Some zero
          /\ mem_logged transaction
               (fst (Routes.run (Routes.post_transactions_buy (storage := mem) body) s)))
  /\ (forall (db : SqliteStorage.t) (transaction : Transaction.t),
        snd (Routes.run (Routes.post_transactions_buy body) db)
        = Routes.Created transaction ->
        Transaction.type transaction = BUY
        /\ Transaction.profit transaction = Some zero
        /\ SqliteStorage.transactions
             (fst (Routes.run (Routes.post_transactions_buy body) db))
           = (SqliteStorage.transactions db ++ [transaction])%list)
  /\ (forall (db : SqliteStorage.t) (transaction : Transaction.t),
        snd (Routes.run (Routes.post_transactions_sell today body) db)
        <> Routes.Created transaction).
Proof.
  split; [|split; [|split]].
  - intros s item Hi Hlt.
    destruct (Routes.run (Routes.post_transactions_sell (storage := mem) today body) s)
      as [s' response] eqn:Hrun.
    assert (Hresponse : exists transaction, response = Routes.Created transaction).
    { rewrite mem_sell, Hi, Hlt in Hrun. cbv zeta in Hrun.
      injection Hrun as _ <-. eexists. reflexivity. }
    destruct Hresponse as [transaction ->]. exists transaction.
    split; [reflexivity|].
    destruct (mem_sell_created_row body s transaction) as (item' & s1 & Hi' & _ & Ht & Hlog).
    { rewrite Hrun. reflexivity. }
    rewrite Hi in Hi'. injection Hi' as <-. rewrite Hrun in Hlog.
    subst transaction. repeat split; [exact Hlog].
  - intros s currency Hc.
    destruct (mem_buy_created_row body s currency Hc) as [s1 ->].
    eexists. split; [reflexivity|]. split; [reflexivity|]. split; [reflexivity|].
    apply mem_createTransaction_logged.
  - intros db transaction Hrun.
    destruct (sqlite_buy_logged body db transaction Hrun) as [-> Hlog].
    split; [reflexivity|]. split; [reflexivity|]. exact Hlog.
  - intros db transaction. apply sqlite_sell_never_created.
Qed.

(** C9, as the code has it.  The row a buy or a sell answered 201 has
    logged carries the total of the request body, as it carries its
    amount and its rate; no route computes the total. *)
Theorem total_is_the_request_total (body : Routes.Request)
  (transaction : Transaction.t) :
  (forall db : SqliteStorage.t,
     snd (Routes.run (Routes.post_transactions_buy body) db)
     = Routes.Created transaction ->
     copies body transaction
     /\ logged transaction (fst (Routes.run (Routes.post_transactions_buy body) db)))
  /\ (forall s : MemStorage.t,
        snd (Routes.run (Routes.post_transactions_buy (storage := mem) body) s)
        = Routes.Created transaction ->
        copies body transaction
        /\ mem_logged transaction
             (fst (Routes.run (Routes.post_transactions_buy (storage := mem) body) s)))
  /\ (forall s : MemStorage.t,
        snd (Routes.run (Routes.post_transactions_sell (storage := mem) today body) s)
        = Routes.Created transaction ->
        copies body transaction
        /\ mem_logged transaction
             (fst (Routes.run
                     (Routes.post_transactions_sell (storage := mem) today body) s)))
  /\ (forall db : SqliteStorage.t,
        snd (Routes.run (Routes.post_transactions_sell today body) db)
        <> Routes.Created transaction).
Proof.
  split; [|split; [|split]].
  - intros db Hrun.
    destruct (sqlite_buy_logged body db transaction Hrun) as [-> Hlog].
    split; [repeat split|]. unfold logged. rewrite Hlog.
    apply in_or_app. right. left. reflexivity.
  - intros s.
    destruct (MemStorage.getCurrency (Routes.currencyId body) s) as [currency|] eqn:Hc.
    + destruct (mem_buy_created_row body s currency Hc) as [s1 ->].
      cbn [fst snd]. intros [= <-]. split; [repeat split|].
      apply mem_createTransaction_logged.
    + rewrite (mem_buy_not_found today body s Hc). discriminate.
  - intros s Hrun.
    destruct (mem_sell_created_row body s transaction Hrun)
      as (item & s1 & _ & _ & -> & Hlog).
    split; [repeat split | exact Hlog].
  - intros db. apply sqlite_sell_never_created.
Qed.

End Log.

(** ** The forms *)

Section FormFacts.
Local Open Scope num_scope.

(** Both forms stop at a toast, and send nothing, when the amount or
    the rate read in them is at most zero. *)
Lemma forms_refuse_nonpositive (availableAmount : num) (form : Forms.Form)
  (a r : num) :
  Forms.amount form = Some a ->
  Forms.rate form = Some r ->
  (a <=? zero) = true \/ (r <=? zero) = true ->
  (exists title, Forms.buy_handleSubmit form = Forms.Toast title)
  /\ (exists title, Forms.sell_handleSubmit availableAmount form = Forms.Toast title).
Proof.
  intros Ha Hr Hle. unfold Forms.buy_handleSubmit, Forms.sell_handleSubmit.
  rewrite Ha, Hr.
  destruct (Forms.currencyId form) as [c|];
    [|split; eexists; reflexivity].
  destruct (a <=? zero) eqn:Hale.
  - rewrite orb_true_r. split; eexists; reflexivity.
  - destruct Hle as [Hle|Hle]; [discriminate|]. rewrite Hle, orb_true_r.
    destruct (isNaN a || false); split; eexists; reflexivity.
Qed.

End FormFacts.

(** ** Runs at concrete requests *)

Section Runs.
Local Open Scope num_scope.
Local Abbreviation int := Binary64.of_Z.
Local Abbreviation dec := Binary64.ratio.
Local Abbreviation mem := (MemStorage.storage "2025-03-14").

Lemma mem_ledger_keyed (rate amount avgBuyPrice : num) :
  mem_keyed (mem_ledger rate amount avgBuyPrice).
Proof.
  split; cbn.
  - constructor; [intros [] | constructor].
  - repeat constructor.
Qed.

(** C1 fails on the code.  On a position holding 0 at 105.78 in the
    in-memory store, and on a currency without a row in the SQLite
    store, the buy of 3 at 105.78 (an amount above zero) is answered
    201, the position then holds 3, and its average price is not the
    rate of the buy: the quotient [(0 * 105.78 + 3 * 105.78) / (0 + 3)]
    is rounded to the next double above 105.78.
    [calculateAverageBuyPrice] returns the same number. *)
Lemma buy_onto_zero_misses_rate :
  let body := request (int 3) (dec 10578 100) in
  let s := mem_ledger (dec 10578 100) (int 0) (dec 10578 100) in
  let db := ledger_of_currency (dec 10578 100) "2025-03-14" in
  (Routes.amount body >? zero) = true
  /\ mem_position 1 s = Some (int 0, dec 10578 100)
  /\ (exists transaction,
        snd (Routes.run (Routes.post_transactions_buy (storage := mem) body) s)
        = Routes.Created transaction)
  /\ mem_position 1
       (fst (Routes.run (Routes.post_transactions_buy (storage := mem) body) s))
     = Some (int 3, PrimFloat.next_up (Routes.rate body))
  /\ position 1 db = None
  /\ (exists transaction,
        snd (Routes.run (Routes.post_transactions_buy body) db)
        = Routes.Created transaction)
  /\ position 1 (fst (Routes.run (Routes.post_transactions_buy body) db))
     = Some (int 3, PrimFloat.next_up (Routes.rate body))
  /\ PrimFloat.next_up (Routes.rate body) <> Routes.rate body
  /\ calculateAverageBuyPrice (int 0) (dec 10578 100) (int 3) (dec 10578 100)
     <> dec 10578 100.
Proof.
  cbv zeta.
  split; [vm_compute; reflexivity|]. split; [vm_compute; reflexivity|].
  split; [eexists; vm_compute; reflexivity|]. split; [vm_compute; reflexivity|].
  split; [vm_compute; reflexivity|].
  split; [eexists; vm_compute; reflexivity|]. split; [vm_compute; reflexivity|].
  split; differ.
Qed.

(** The amended C1 at the example of the specification, 100 at 80 then
    50 at 83, which is exact on binary64 (150 at 81), and at the buy of
    its counterexample. *)
Lemma weighted_average_is_folded_in_binary64_witness :
  mem_position 1
    (buy_all (storage := mem)
       [request (int 100) (int 80); request (int 50) (int 83)]
       (mem_ledger (dec 165 2) (int 0) (dec 165 2)))
  = Some (int 150, int 81)
  /\ position 1
       (fst (Routes.run (Routes.post_transactions_buy (request (int 3) (dec 10578 100)))
               (ledger_of_currency (dec 10578 100) "2025-03-14")))
     = Some (int 3, PrimFloat.next_up (dec 10578 100)).
Proof.
  destruct (weighted_average_is_folded_in_binary64 "2025-03-14" 1
              [request (int 100) (int 80); request (int 50) (int 83)]
              (mem_ledger (dec 165 2) (int 0) (dec 165 2))
              (Currency.Build 1 "GBP" "British Pound" "United Kingdom" (dec 165 2))
              (MemStorage.Build_Item 1 1 (int 0) (dec 165 2)
                 (Some (int 0 * dec 165 2)))
              (mem_ledger_keyed _ _ _) eq_refl eq_refl
              ltac:(repeat constructor))
    as (Hfold & _ & _ & Hsqlite).
  split.
  - refine (eq_trans Hfold _). vm_compute. reflexivity.
  - destruct (Hsqlite (request (int 3) (dec 10578 100))
                (ledger_of_currency (dec 10578 100) "2025-03-14")
                (Currency.Build 1 "GBP" "British Pound" "United Kingdom"
                   (dec 10578 100))
                eq_refl eq_refl ltac:(vm_compute; reflexivity)) as [_ Hposition].
    refine (eq_trans Hposition _). vm_compute. reflexivity.
Defined.

(** Three buys of 1, at 0.1, 0.2 and 0.3: the amount held is 3 and the
    average price stored is the double above 0.2. *)
Example three_buys_round_three_times :
  mem_position 1
    (buy_all (storage := mem)
       [request (int 1) (dec 1 10); request (int 1) (dec 2 10);
        request (int 1) (dec 3 10)]
       (mem_ledger (dec 165 2) (int 0) (dec 165 2)))
  = Some (int 3, PrimFloat.next_up (dec 2 10)).
Proof. vm_compute. reflexivity. Qed.

(** The example of the specification for C2: 100 held at 80, sell 40
    at 90.  In the in-memory store 60 remain, still at 80; in the SQLite
    store the row is as it was. *)
Lemma sell_keeps_avgBuyPrice_witness :
  (exists transaction,
     snd (Routes.run
            (Routes.post_transactions_sell (storage := mem) "2025-03-14"
               (request (int 40) (int 90)))
            (mem_ledger (int 90) (int 100) (int 80)))
     = Routes.Created transaction)
  /\ mem_position 1
       (fst (Routes.run
               (Routes.post_transactions_sell (storage := mem) "2025-03-14"
                  (request (int 40) (int 90)))
               (mem_ledger (int 90) (int 100) (int 80))))
     = Some (int 60, int 80)
  /\ SqliteStorage.inventory
       (fst (Routes.run
               (Routes.post_transactions_sell "2025-03-14" (request (int 40) (int 90)))
               (ledger (int 90) (int 100) (int 80))))
     = [Inventory.Build 1 1 (int 100) (int 80)].
Proof.
  destruct (sell_keeps_avgBuyPrice "2025-03-14" (request (int 40) (int 90)))
    as [Hmem Hsqlite].
  destruct (Hmem (mem_ledger (int 90) (int 100) (int 80))
              (MemStorage.Build_Item 1 1 (int 100) (int 80) (Some (int 100 * int 80)))
              (mem_ledger_keyed _ _ _) eq_refl ltac:(vm_compute; reflexivity))
    as [Hcreated Hposition].
  split; [exact Hcreated|]. split.
  - refine (eq_trans Hposition _). vm_compute. reflexivity.
  - refine (eq_trans (Hsqlite _) _). reflexivity.
Defined.

(** The example of the specification for C3: 60 held, a sell of 100 is
    turned down with 60 available and nothing is written; a sell of 60
    is not turned down by the stock check. *)
Lemma sell_insufficient_stock_witness :
  Routes.run (Routes.post_transactions_sell "2025-03-14" (request (int 100) (int 90)))
    (ledger (int 90) (int 60) (int 80))
  = (ledger (int 90) (int 60) (int 80), Routes.NotEnoughStock (int 60))
  /\ snd (Routes.run
            (Routes.post_transactions_sell "2025-03-14" (request (int 60) (int 90)))
            (ledger (int 90) (int 60) (int 80)))
     <> Routes.NotEnoughStock (int 60)
  /\ Routes.run
       (Routes.post_transactions_sell (storage := mem) "2025-03-14"
          (request (int 100) (int 90)))
       (mem_ledger (int 90) (int 60) (int 80))
     = (mem_ledger (int 90) (int 60) (int 80), Routes.NotEnoughStock (int 60))
  /\ snd (Routes.run
            (Routes.post_transactions_sell (storage := mem) "2025-03-14"
               (request (int 60) (int 90)))
            (mem_ledger (int 90) (int 60) (int 80)))
     <> Routes.NotEnoughStock (int 60).
Proof.
  split; [|split; [|split]].
  - apply (proj1 (proj1 (sell_insufficient_stock "2025-03-14"
                           (request (int 100) (int 90)))
                    (ledger (int 90) (int 60) (int 80))
                    (Inventory.Build 1 1 (int 60) (int 80)) eq_refl)).
    vm_compute. reflexivity.
  - apply (proj2 (proj1 (sell_insufficient_stock "2025-03-14"
                           (request (int 60) (int 90)))
                    (ledger (int 90) (int 60) (int 80))
                    (Inventory.Build 1 1 (int 60) (int 80)) eq_refl)).
    reflexivity.
  - apply (proj1 (proj2 (sell_insufficient_stock "2025-03-14"
                           (request (int 100) (int 90)))
                    (mem_ledger (int 90) (int 60) (int 80))
                    (MemStorage.Build_Item 1 1 (int 60) (int 80)
                       (Some (int 60 * int 80))) eq_refl)).
    vm_compute. reflexivity.
  - apply (proj2 (proj2 (sell_insufficient_stock "2025-03-14"
                           (request (int 60) (int 90)))
                    (mem_ledger (int 90) (int 60) (int 80))
                    (MemStorage.Build_Item 1 1 (int 60) (int 80)
                       (Some (int 60 * int 80))) eq_refl)).
    reflexivity.
Defined.

(** C4 at the sell of the specification, 40 at 90 against 80, which
    logs the profit 400 in the in-memory store, and at a buy of 100 at
    80 in each store. *)
Lemma profit_recorded_witness :
  (exists transaction,
     snd (Routes.run
            (Routes.post_transactions_sell (storage := mem) "2025-03-14"
               (request (int 40) (int 90)))
            (mem_ledger (int 90) (int 100) (int 80)))
     = Routes.Created transaction
     /\ Transaction.type transaction = SELL
     /\ Transaction.profit transaction = Some (int 400))
  /\ (exists transaction,
        snd (Routes.run
               (Routes.post_transactions_buy (storage := mem)
                  (request (int 100) (int 80)))
               (mem_ledger (dec 165 2) (int 0) (dec 165 2)))
        = Routes.Created transaction
        /\ Transaction.type transaction = BUY
        /\ Transaction.profit transaction = Some (int 0))
  /\ SqliteStorage.transactions
       (fst (Routes.run (Routes.post_transactions_buy (request (int 100) (int 80)))
               (ledger_of_currency (dec 165 2) "2025-03-14")))
     = [Transaction.Build 1 1 BUY (int 100) (int 80) (int 8000) (Some "counter")
          (Some (int 0))].
Proof.
  split; [|split].
  - destruct (proj1 (profit_recorded "2025-03-14" (request (int 40) (int 90)))
                (mem_ledger (int 90) (int 100) (int 80))
                (MemStorage.Build_Item 1 1 (int 100) (int 80)
                   (Some (int 100 * int 80)))
                eq_refl ltac:(vm_compute; reflexivity))
      as (transaction & Hrun & Htype & Hprofit & _).
    exists transaction. split; [exact Hrun|]. split; [exact Htype|].
    refine (eq_trans Hprofit _). vm_compute. reflexivity.
  - destruct (proj1 (proj2 (profit_recorded "2025-03-14" (request (int 100) (int 80))))
                (mem_ledger (dec 165 2) (int 0) (dec 165 2))
                (Currency.Build 1 "GBP" "British Pound" "United Kingdom" (dec 165 2))
                eq_refl)
      as (transaction & Hrun & Htype & Hprofit & _).
    exists transaction. split; [exact Hrun|]. split; [exact Htype|].
    refine (eq_trans Hprofit _). reflexivity.
  - destruct (proj1 (proj2 (proj2 (profit_recorded "2025-03-14"
                                     (request (int 100) (int 80)))))
                (ledger_of_currency (dec 165 2) "2025-03-14")
                (Transaction.Build 1 1 BUY (int 100) (int 80) (int 8000)
                   (Some "counter") (Some (int 0)))
                ltac:(vm_compute; reflexivity))
      as (_ & _ & Hlog).
    refine (eq_trans Hlog _). reflexivity.
Defined.

(** C5 fails on the code.  From a stat of the day that reads zero and
    zero, a buy of 100 at 80 and a sell of 40 at 90, both answered 201,
    the sell with the profit 400: the in-memory store then shows a stat
    of profit 800 and count 3, not 400 and 1.  Its [createTransaction]
    has folded each of the two rows into the stat, and the sell route
    has folded the sell once more.  In the SQLite store the same buy is
    answered 201 and the same sell 500, and the stat stays at zero and
    zero. *)
Theorem daily_stat_is_folded_twice :
  let ops :=
    [Buy (request (int 100) (int 80));
     Sell "2025-03-14" (request (int 40) (int 90))] in
  let s := mem_ledger_with_stat (dec 165 2) (int 0) (dec 165 2) "2025-03-14" zero 0 in
  let db := ledger_of_currency (dec 165 2) "2025-03-14" in
  map snd (snd (serve_all (storage := mem) ops s))
  = [Routes.Created
       (Transaction.Build 1 1 BUY (int 100) (int 80) (int 8000) (Some "counter")
          (Some (int 0)));
     Routes.Created
       (Transaction.Build 2 1 SELL (int 40) (int 90) (int 3600) (Some "counter")
          (Some (int 400)))]
  /\ mem_stat_of "2025-03-14" s = Some (int 0, 0)
  /\ mem_stat_of "2025-03-14" (fst (serve_all (storage := mem) ops s))
     = Some (int 800, 3)
  /\ map snd (snd (serve_all ops db))
     = [Routes.Created
          (Transaction.Build 1 1 BUY (int 100) (int 80) (int 8000) (Some "counter")
             (Some (int 0)));
        Routes.Failed "Failed to create transaction"]
  /\ stat_of "2025-03-14" (fst (serve_all ops db)) = Some (int 0, 0).
Proof. vm_compute. repeat split. Qed.

(** C6 fails on the code.  A buy of a currency that has no row in
    [inventory] yet, whose INSERT into [transactions] throws (the fifth
    call of the store), is answered 500 with the row of the position
    inserted and raised to 100 at 80, and no row logged; when the UPDATE
    throws (the fourth call) the row is left inserted, at 0. *)
Theorem interrupted_request_leaves_partial_writes :
  let db := ledger_of_currency (dec 165 2) "2025-03-14" in
  let body := request (int 100) (int 80) in
  let after_insert :=
    Routes.post_transactions_buy body (db, [false; false; false; false; true]) in
  let after_update :=
    Routes.post_transactions_buy body (db, [false; false; false; true]) in
  position 1 db = None
  /\ (snd after_insert = Routes.Failed "Failed to create transaction"
      /\ position 1 (fst (fst after_insert)) = Some (int 100, int 80)
      /\ SqliteStorage.transactions (fst (fst after_insert)) = [])
  /\ (snd after_update = Routes.Failed "Failed to create transaction"
      /\ position 1 (fst (fst after_update)) = Some (int 0, int 80)
      /\ SqliteStorage.transactions (fst (fst after_update)) = []).
Proof. vm_compute. repeat split. Qed.

(** C7 fails on the code.  No route checks the range of the amount or
    of the rate.  In the SQLite store a buy of -5 is answered 201 and
    leaves the position at -5, and a buy of 10 at the rate -2 is
    answered 201 and leaves the position at 10 at -2; in the in-memory
    store a sell of -5 is answered 201 and raises the position from 100
    to 105.  The forms of the UI make the check: with an amount or a
    rate at most zero they stop at a toast and post nothing. *)
Theorem routes_serve_amounts_and_rates_below_zero :
  (let db := ledger (dec 165 2) (int 0) (dec 165 2) in
   let body := request (int (-5)) (int 80) in
   (Routes.amount body <? zero) = true
   /\ snd (Routes.run (Routes.post_transactions_buy body) db)
      = Routes.Created
          (Transaction.Build 1 1 BUY (int (-5)) (int 80) (int (-400))
             (Some "counter") (Some (int 0)))
   /\ position 1 (fst (Routes.run (Routes.post_transactions_buy body) db))
      = Some (int (-5), int 80))
  /\ (let db := ledger_of_currency (dec 165 2) "2025-03-14" in
      let body := request (int 10) (int (-2)) in
      (Routes.rate body <? zero) = true
      /\ snd (Routes.run (Routes.post_transactions_buy body) db)
         = Routes.Created
             (Transaction.Build 1 1 BUY (int 10) (int (-2)) (int (-20))
                (Some "counter") (Some (int 0)))
      /\ position 1 (fst (Routes.run (Routes.post_transactions_buy body) db))
         = Some (int 10, int (-2)))
  /\ (let s := mem_ledger (int 90) (int 100) (int 80) in
      let body := request (int (-5)) (int 90) in
      snd (Routes.run (Routes.post_transactions_sell (storage := mem) "2025-03-14" body) s)
      = Routes.Created
          (Transaction.Build 1 1 SELL (int (-5)) (int 90) (int (-450))
             (Some "counter") (Some (int (-50))))
      /\ mem_position 1
           (fst (Routes.run
                   (Routes.post_transactions_sell (storage := mem) "2025-03-14" body) s))
         = Some (int 105, int 80))
  /\ (forall (availableAmount : num) (form : Forms.Form) (a r : num),
        Forms.amount form = Some a ->
        Forms.rate form = Some r ->
        (a <=? zero) = true \/ (r <=? zero) = true ->
        (exists title, Forms.buy_handleSubmit form = Forms.Toast title)
        /\ (exists title,
              Forms.sell_handleSubmit availableAmount form = Forms.Toast title)).
Proof.
  split; [vm_compute; repeat split|].
  split; [vm_compute; repeat split|].
  split; [vm_compute; repeat split|].
  apply forms_refuse_nonpositive.
Qed.

(** C8 fails on the SQLite store.  [resetInventory] never writes
    [avg_buy_price]: on a position holding 100 at 80 of a currency
    whose rate is 85, the reset leaves the average price at 80, not at
    the rate; and it creates no daily stat, so a day that had no row
    has none afterwards.  The in-memory store, on the same position,
    sets the price to 85 and creates the stat of the day. *)
Theorem resetInventory_keeps_stale_avgBuyPrice :
  let db := ledger (int 85) (int 100) (int 80) in
  let after := fst (fst (Routes.post_reset (db, []))) in
  let mem := MemStorage.resetInventory "2025-03-14"
               (mem_ledger (int 85) (int 100) (int 80)) in
  SqliteStorage.getInventoryByCurrencyId 1 after
  = Some (Inventory.Build 1 1 (int 0) (int 80))
  /\ SqliteStorage.getCurrency 1 after
     = Some (Currency.Build 1 "GBP" "British Pound" "United Kingdom" (int 85))
  /\ int 80 <> int 85
  /\ SqliteStorage.getDailyStats "2025-03-14" after = None
  /\ MemStorage.getInventoryByCurrencyId 1 mem
     = Some (MemStorage.Build_Item 1 1 (int 0) (int 85) (Some (int 0)))
  /\ MemStorage.getDailyStats "2025-03-14" mem
     = Some (DailyStats.Build 1 "2025-03-14" (int 0) 0).
Proof.
  cbv zeta. split; [vm_compute; reflexivity|].
  split; [vm_compute; reflexivity|]. split; [differ|].
  repeat split; vm_compute; reflexivity.
Qed.

(** C9 fails on the code.  A buy of 10 at 2 whose body carries the
    total 999 is answered 201 and the row it logs has total 999, which
    is not 10 * 2. *)
Lemma total_chosen_by_caller :
  let db := ledger_of_currency (int 2) "2025-03-14" in
  let body := Routes.Build_Request 1 (int 10) (int 2) (int 999) (Some "counter") in
  exists transaction,
    snd (Routes.run (Routes.post_transactions_buy body) db)
    = Routes.Created transaction
    /\ logged transaction (fst (Routes.run (Routes.post_transactions_buy body) db))
    /\ Transaction.total transaction
       <> Transaction.amount transaction * Transaction.rate transaction.
Proof.
  eexists. split; [vm_compute; reflexivity|].
  split; [vm_compute; left; reflexivity|].
  cbn [Transaction.total Transaction.amount Transaction.rate]. differ.
Qed.

(** The amended C9 at the request of its counterexample, and at a sell
    in the in-memory store whose body carries the total 1. *)
Lemma total_is_the_request_total_witness :
  logged
    (Transaction.Build 1 1 BUY (int 10) (int 2) (int 999) (Some "counter")
       (Some (int 0)))
    (fst (Routes.run
            (Routes.post_transactions_buy
               (Routes.Build_Request 1 (int 10) (int 2) (int 999) (Some "counter")))
            (ledger_of_currency (int 2) "2025-03-14")))
  /\ mem_logged
       (Transaction.Build 1 1 SELL (int 40) (int 90) (int 1) None (Some (int 400)))
       (fst (Routes.run
               (Routes.post_transactions_sell (storage := mem) "2025-03-14"
                  (Routes.Build_Request 1 (int 40) (int 90) (int 1) None))
               (mem_ledger (int 90) (int 100) (int 80)))).
Proof.
  split.
  - apply (proj1 (total_is_the_request_total "2025-03-14"
                    (Routes.Build_Request 1 (int 10) (int 2) (int 999) (Some "counter"))
                    (Transaction.Build 1 1 BUY (int 10) (int 2) (int 999)
                       (Some "counter") (Some (int 0))))
             (ledger_of_currency (int 2) "2025-03-14")).
    vm_compute. reflexivity.
  - apply (proj1 (proj2 (proj2 (total_is_the_request_total "2025-03-14"
                                  (Routes.Build_Request 1 (int 40) (int 90) (int 1) None)
                                  (Transaction.Build 1 1 SELL (int 40) (int 90) (int 1)
                                     None (Some (int 400))))))
             (mem_ledger (int 90) (int 100) (int 80))).
    vm_compute. reflexivity.
Defined.

End Runs.
